(** * ETF Investment Growth Analyzer: the metrics of [ETF.py]

    A shallow embedding of the computation that [ETF.py] runs when the
    "Analyze Growth" button is pressed, and the properties of its metrics.

    Numbers.  pandas and numpy compute on IEEE binary64 values.  The main
    model ([Float64]) idealises them as extended reals: a value is [NaN], an
    infinity, or a finite real.  Finite arithmetic is exact (no rounding, no
    overflow, one unsigned zero); the special values follow the IEEE rules
    that the script relies on: [NaN] marks a missing entry, division by zero
    gives an infinity or [NaN] and raises nothing, every comparison with
    [NaN] is false.  What is proved in this model is a property of the
    formulas of the script; it carries over to the binary64 run up to
    rounding.  Identities between different ways of computing the same real
    number do not carry over: module [Binary64] evaluates the same
    operations on binary64 values, in numpy's order, to show where they
    fail.

    Dates.  The index of a downloaded price frame is modelled as calendar
    dates; the time-zone aware timestamps of the script ([start_date],
    [end_date], the index of the dividend series) are instants, counted in
    nanoseconds as pandas does. *)

From Stdlib Require Import Reals Lra Lia ZArith String Bool List Sorted.
From Stdlib Require Floats.
Import ListNotations.

Open Scope R_scope.

(* ===================================================================== *)
(** * numpy.float64 *)
(* ===================================================================== *)

Module Float64.

Inductive float64 : Type :=
| NaN
| Inf (neg : bool)
| Fin (r : R).

Definition Rneg (r : R) : bool := if Rlt_dec r 0 then true else false.
Definition Rzero (r : R) : bool := if Req_EM_T r 0 then true else false.

Definition isnan (x : float64) : bool :=
  match x with NaN => true | _ => false end.

Definition notna (x : float64) : bool := negb (isnan x).

Definition fadd (x y : float64) : float64 :=
  match x, y with
  | NaN, _ | _, NaN => NaN
  | Inf s, Inf t => if Bool.eqb s t then Inf s else NaN
  | Inf s, Fin _ | Fin _, Inf s => Inf s
  | Fin a, Fin b => Fin (a + b)
  end.

Definition fsub (x y : float64) : float64 :=
  match x, y with
  | NaN, _ | _, NaN => NaN
  | Inf s, Inf t => if Bool.eqb s t then NaN else Inf s
  | Inf s, Fin _ => Inf s
  | Fin _, Inf t => Inf (negb t)
  | Fin a, Fin b => Fin (a - b)
  end.

Definition fmul (x y : float64) : float64 :=
  match x, y with
  | NaN, _ | _, NaN => NaN
  | Inf s, Inf t => Inf (xorb s t)
  | Inf s, Fin a | Fin a, Inf s => if Rzero a then NaN else Inf (xorb s (Rneg a))
  | Fin a, Fin b => Fin (a * b)
  end.

(** numpy division: a zero divisor raises nothing. *)
Definition fdiv (x y : float64) : float64 :=
  match x, y with
  | NaN, _ | _, NaN => NaN
  | Inf _, Inf _ => NaN
  | Inf s, Fin b => Inf (xorb s (Rneg b))
  | Fin _, Inf _ => Fin 0
  | Fin a, Fin b =>
      if Rzero b then (if Rzero a then NaN else Inf (Rneg a)) else Fin (a / b)
  end.

Definition fsqrt (x : float64) : float64 :=
  match x with
  | NaN => NaN
  | Inf s => if s then NaN else Inf false
  | Fin a => if Rneg a then NaN else Fin (sqrt a)
  end.

(** [y] is an integer / an odd integer. *)
Definition Rint (y : R) : bool := if Req_EM_T (frac_part y) 0 then true else false.
Definition Rodd (y : R) : bool := Rint y && Z.odd (Int_part y).

(** [x ** y] for a finite exponent [y], after C's [pow]. *)
Definition fpow (x : float64) (y : R) : float64 :=
  if Rzero y then Fin 1
  else match x with
       | NaN => NaN
       | Inf s =>
           if Rneg y then Fin 0
           else Inf (s && Rodd y)
       | Fin a =>
           if Rzero (a - 1) then Fin 1
           else if Rzero a then (if Rneg y then Inf false else Fin 0)
           else if Rneg a then
                  (if Rint y
                   then Fin (if Z.odd (Int_part y) then - Rpower (- a) y else Rpower (- a) y)
                   else NaN)
           else Fin (Rpower a y)
       end.

(** [x == y] and [x != y] on floats. *)
Definition feqb (x y : float64) : bool :=
  match x, y with
  | Fin a, Fin b => Rzero (a - b)
  | Inf s, Inf t => Bool.eqb s t
  | _, _ => false
  end.

Definition fneb (x y : float64) : bool := negb (feqb x y).

(** [x <= y] on floats: false as soon as one side is [NaN]. *)
Definition fle (x y : float64) : Prop :=
  match x, y with
  | NaN, _ | _, NaN => False
  | Inf s, Inf t => s = true \/ t = false
  | Inf s, Fin _ => s = true
  | Fin _, Inf t => t = false
  | Fin a, Fin b => a <= b
  end.

End Float64.
Export Float64.

(* ===================================================================== *)
(** * Python exceptions *)
(* ===================================================================== *)

Inductive exn : Type :=
| ZeroDivisionError
| IndexError
| ValueError.

Inductive result (A : Type) : Type :=
| Ok (a : A)
| Raise (e : exn).
Arguments Ok {A} a.
Arguments Raise {A} e.

Definition bind {A B : Type} (m : result A) (k : A -> result B) : result B :=
  match m with
  | Ok a => k a
  | Raise e => Raise e
  end.

Notation "x <- m ;; k" := (bind m (fun x => k))
  (at level 61, m at next level, right associativity).

(** Division of Python floats: a zero divisor raises. *)
Definition py_truediv (a b : R) : result R :=
  if Rzero b then Raise ZeroDivisionError else Ok (a / b).

(* ===================================================================== *)
(** * pandas *)
(* ===================================================================== *)

Module Pandas.

(** [frame.empty], [series.empty]: no rows. *)
Definition empty {A : Type} (rows : list A) : bool :=
  match rows with [] => true | _ :: _ => false end.

Section Series.

Context {I : Type}.
Variable I_eqb : I -> I -> bool.

(** A [Series]: index labels with their values, in row order. *)
Definition Series : Type := list (I * float64).

Definition index (s : Series) : list I := map fst s.
Definition values (s : Series) : list float64 := map snd s.

(** [s.iloc[0]] and [s.iloc[-1]]. *)
Definition iloc_first (s : Series) : result float64 :=
  match s with
  | [] => Raise IndexError
  | (_, v) :: _ => Ok v
  end.

Fixpoint iloc_last (s : Series) : result float64 :=
  match s with
  | [] => Raise IndexError
  | [(_, v)] => Ok v
  | _ :: rest => iloc_last rest
  end.

(** [s.shift(1)] on the values. *)
Definition shift (vs : list float64) : list float64 :=
  match vs with
  | [] => []
  | _ :: _ => NaN :: removelast vs
  end.

(** [s.pct_change()]: [s / s.shift(1) - 1]. *)
Definition pct_change (s : Series) : Series :=
  combine (index s)
    (map (fun vp => fsub (fdiv (fst vp) (snd vp)) (Fin 1))
         (combine (values s) (shift (values s)))).

Definition dropna (s : Series) : Series :=
  filter (fun iv => notna (snd iv)) s.

Definition fillna (c : float64) (s : Series) : Series :=
  map (fun iv => (fst iv, if isnan (snd iv) then c else snd iv)) s.

(** [s.add(c)], [s - c] and [c * s] for a scalar [c]. *)
Definition add (c : float64) (s : Series) : Series :=
  map (fun iv => (fst iv, fadd (snd iv) c)) s.

Definition sub (c : float64) (s : Series) : Series :=
  map (fun iv => (fst iv, fsub (snd iv) c)) s.

Definition rmul (c : float64) (s : Series) : Series :=
  map (fun iv => (fst iv, fmul c (snd iv))) s.

(** [s.cumprod()]: missing entries are skipped and stay missing. *)
Fixpoint cumprod_from (acc : float64) (vs : list float64) : list float64 :=
  match vs with
  | [] => []
  | v :: rest =>
      if isnan v then NaN :: cumprod_from acc rest
      else fmul acc v :: cumprod_from (fmul acc v) rest
  end.

Definition cumprod (s : Series) : Series :=
  combine (index s) (cumprod_from (Fin 1) (values s)).

(** Label lookup, and [frame[col] = s]: the assigned series is aligned on
    the index of the frame, labels it lacks become missing. *)
Fixpoint lookup (i : I) (s : Series) : option float64 :=
  match s with
  | [] => None
  | (j, v) :: rest => if I_eqb i j then Some v else lookup i rest
  end.

Definition reindex (idx : list I) (s : Series) : Series :=
  map (fun i => (i, match lookup i s with Some v => v | None => NaN end)) idx.

(** [not index.is_unique] and [index.equals(other)]. *)
Fixpoint has_duplicates (l : list I) : bool :=
  match l with
  | [] => false
  | i :: rest => existsb (I_eqb i) rest || has_duplicates rest
  end.

Fixpoint labels_equal (l l' : list I) : bool :=
  match l, l' with
  | [], [] => true
  | i :: rest, j :: rest' => I_eqb i j && labels_equal rest rest'
  | _, _ => false
  end.

(** [frame[col] = s] for a frame with index [idx]: a series on the same
    index is taken as it is; otherwise it is reindexed on [idx], which pandas
    refuses with [ValueError] ("cannot reindex on an axis with duplicate
    labels") when the index of [s] has a repeated label. *)
Definition setitem (idx : list I) (s : Series) : result Series :=
  if labels_equal (index s) idx then Ok s
  else if has_duplicates (index s) then Raise ValueError
  else Ok (reindex idx s).

(** Sum of a list of floats; with exact finite arithmetic the order of the
    additions does not matter. *)
Fixpoint fsum (vs : list float64) : float64 :=
  match vs with
  | [] => Fin 0
  | v :: rest => fadd v (fsum rest)
  end.

(** The number of values that are present, and the values with the
    missing ones replaced by 0, as the reductions of [nanops] see them. *)
Definition count (vs : list float64) : nat := List.length (List.filter notna vs).

Definition zero_na (vs : list float64) : list float64 :=
  map (fun v => if isnan v then Fin 0 else v) vs.

(** [nanops.nansum], [nanops.nanmean]. *)
Definition nansum (vs : list float64) : float64 := fsum (zero_na vs).

Definition nanmean (vs : list float64) : float64 :=
  if (0 <? count vs)%nat then fdiv (nansum vs) (Fin (INR (count vs))) else NaN.

(** [nanops.nanvar]: with [count <= ddof] both the count and the divisor
    are set to [NaN]. *)
Definition nanvar (ddof : nat) (vs : list float64) : float64 :=
  let n := count vs in
  let cnt := if (n <=? ddof)%nat then NaN else Fin (INR n) in
  let d := if (n <=? ddof)%nat then NaN else Fin (INR n - INR ddof) in
  let avg := fdiv (nansum vs) cnt in
  let sqr := map (fun v => if isnan v then Fin 0
                           else fmul (fsub avg v) (fsub avg v)) vs in
  fdiv (fsum sqr) d.

Definition sum (s : Series) : float64 := nansum (values s).
Definition mean (s : Series) : float64 := nanmean (values s).
Definition var (s : Series) : float64 := nanvar 1 (values s).
Definition std (s : Series) : float64 := fsqrt (nanvar 1 (values s)).

(** [s.align(other, join="inner")], as pairs of values, for an [other]
    whose labels are distinct (pandas pairs a row with every occurrence of
    its label; here it is paired with the first). *)
Fixpoint align_inner (s other : Series) : list (float64 * float64) :=
  match s with
  | [] => []
  | (i, a) :: rest =>
      match lookup i other with
      | Some b => (a, b) :: align_inner rest other
      | None => align_inner rest other
      end
  end.

(** [numpy.cov(a, b, ddof)[0, 1]]. *)
Definition np_cov (ddof : nat) (ab : list (float64 * float64)) : float64 :=
  let n := List.length ab in
  let avg_a := fdiv (fsum (map fst ab)) (Fin (INR n)) in
  let avg_b := fdiv (fsum (map snd ab)) (Fin (INR n)) in
  let c := fsum (map (fun p => fmul (fsub (fst p) avg_a) (fsub (snd p) avg_b)) ab) in
  let fact := if (n <=? ddof)%nat then 0 else INR n - INR ddof in
  fmul c (fdiv (Fin 1) (Fin fact)).

(** [s.cov(other)]: inner alignment, rows with a missing side dropped,
    [min_periods = 1], [ddof = 1]. *)
Definition cov (s other : Series) : float64 :=
  let valid := List.filter (fun p => notna (fst p) && notna (snd p))
                           (align_inner s other) in
  if (List.length valid <? 1)%nat then NaN else np_cov 1 valid.

End Series.

(** [frame.groupby(key).last()] on one column: the groups come out sorted
    by key, each with the last entry of the column that is not missing. *)
Fixpoint insert_key (k : Z) (ks : list Z) : list Z :=
  match ks with
  | [] => [k]
  | h :: t =>
      if (k <? h)%Z then k :: ks
      else if (k =? h)%Z then ks
      else h :: insert_key k t
  end.

Definition group_keys (ks : list Z) : list Z := fold_right insert_key [] ks.

Fixpoint last_valid (vs : list float64) : float64 :=
  match vs with
  | [] => NaN
  | v :: rest =>
      match last_valid rest with
      | NaN => v
      | w => w
      end
  end.

Definition group (k : Z) (keys : list Z) (col : list float64) : list float64 :=
  map snd (List.filter (fun kv => (fst kv =? k)%Z) (combine keys col)).

Definition groupby_last (keys : list Z) (col : list float64) : list (Z * float64) :=
  map (fun k => (k, last_valid (group k keys col))) (group_keys keys).

End Pandas.

(* ===================================================================== *)
(** * ETF.py *)
(* ===================================================================== *)

Module ETF.

Import Pandas.

(** A label of the index of a price frame: a trading day. *)
Record Date : Type := mkDate { year : Z; month : Z; day : Z }.

Definition date_eqb (a b : Date) : bool :=
  ((year a =? year b) && (month a =? month b) && (day a =? day b))%Z.

Definition date_lt (a b : Date) : Prop :=
  (year a < year b
   \/ (year a = year b /\ month a < month b)
   \/ (year a = year b /\ month a = month b /\ day a < day b))%Z.

Definition date_le (a b : Date) : Prop := a = b \/ date_lt a b.

(** A time-zone aware [pd.Timestamp]: an instant, in nanoseconds. *)
Definition Timestamp : Type := Z.

Definition day_ns : Z := 86400000000000.

(** [Timedelta.days]: the whole days of a difference of instants. *)
Definition days (delta : Z) : Z := (delta / day_ns)%Z.

(** The market-data provider: [yf.download(symbol, start, end)] reduced to
    its ['Adj Close'] column, and [yf.Ticker(symbol).dividends]. *)
Record Provider : Type := {
  download : string -> Timestamp -> Timestamp -> list (Date * R);
  ticker_dividends : string -> list (Timestamp * R)
}.

Definition PriceFrame : Type := list (Date * R).

Definition risk_free_rate : R := 0.02.

(** [data['Adj Close']] *)
Definition adj_close (data : PriceFrame) : Series :=
  map (fun row => (fst row, Fin (snd row))) data.

(** [data['Daily Return'] = data['Adj Close'].pct_change().dropna()] *)
Definition daily_return (data : PriceFrame) : Series :=
  reindex date_eqb (index (adj_close data)) (dropna (pct_change (adj_close data))).

(** The assignment itself: it raises when two rows that carry a return have
    the same date, and otherwise stores the column [daily_return]. *)
Definition assign_daily_return (data : PriceFrame) : result Series :=
  setitem date_eqb (index (adj_close data)) (dropna (pct_change (adj_close data))).

(** [data['Cumulative Return'] =
     data['Adj Close'].pct_change().fillna(0).add(1).cumprod()] *)
Definition cumulative_return (data : PriceFrame) : Series :=
  cumprod (add (Fin 1) (fillna (Fin 0) (pct_change (adj_close data)))).

(** [data['Investment Value'] = initial_investment * data['Cumulative Return']] *)
Definition investment_value (initial_investment : Z) (data : PriceFrame) : Series :=
  rmul (Fin (IZR initial_investment)) (cumulative_return data).

(** [total_return = data['Cumulative Return'].iloc[-1] - 1] *)
Definition total_return (data : PriceFrame) : result float64 :=
  last <- iloc_last (cumulative_return data) ;;
  Ok (fsub last (Fin 1)).

(** [years = (end_date - start_date).days / 365.25] *)
Definition years (start_date end_date : Timestamp) : R :=
  IZR (days (end_date - start_date)) / 365.25.

(** [cagr = (1 + total_return)**(1/years) - 1] *)
Definition cagr_of (total_return : float64) (years : R) : result float64 :=
  e <- py_truediv 1 years ;;
  Ok (fsub (fpow (fadd (Fin 1) total_return) e) (Fin 1)).

Definition cagr (data : PriceFrame) (start_date end_date : Timestamp) : result float64 :=
  tr <- total_return data ;;
  cagr_of tr (years start_date end_date).

(** [daily_volatility = data['Daily Return'].std()] *)
Definition daily_volatility (data : PriceFrame) : float64 :=
  std (daily_return data).

(** [252 ** 0.5] *)
Definition sqrt_252 : float64 := fpow (Fin 252) 0.5.

(** [annualized_volatility = daily_volatility * (252 ** 0.5)] *)
Definition annualized_volatility (data : PriceFrame) : float64 :=
  fmul (daily_volatility data) sqrt_252.

(** [daily_excess_return = data['Daily Return'] - (risk_free_rate / 252)] *)
Definition daily_excess_return (data : PriceFrame) : Series :=
  sub (Fin (risk_free_rate / 252)) (daily_return data).

(** [daily_sharpe_ratio = daily_excess_return.mean() / daily_volatility] *)
Definition daily_sharpe_ratio (data : PriceFrame) : float64 :=
  fdiv (mean (daily_excess_return data)) (daily_volatility data).

(** [annualized_sharpe_ratio = daily_sharpe_ratio * (252 ** 0.5)] *)
Definition annualized_sharpe_ratio (data : PriceFrame) : float64 :=
  fmul (daily_sharpe_ratio data) sqrt_252.

(** [market_return = market_data['Adj Close'].pct_change().dropna()] *)
Definition market_return (market_data : PriceFrame) : Series :=
  dropna (pct_change (adj_close market_data)).

(** The beta block: [None] stands for Python's [None]. *)
Definition beta (data market_data : PriceFrame) : option float64 :=
  if negb (empty market_data) then
    let covariance := cov date_eqb (daily_return data) (market_return market_data) in
    let market_variance := var (market_return market_data) in
    if fneb market_variance (Fin 0)
    then Some (fdiv covariance market_variance)
    else None
  else None.

(** [dividends[(dividends.index >= start_date) & (dividends.index <= end_date)]] *)
Definition in_window (start_date end_date : Timestamp)
    (dividends : list (Timestamp * R)) : list (Timestamp * R) :=
  List.filter (fun d => ((start_date <=? fst d) && (fst d <=? end_date))%Z) dividends.

Definition amounts (dividends : list (Timestamp * R)) : Series :=
  map (fun d => (fst d, Fin (snd d))) dividends.

(** The dividend-yield block. *)
Definition dividend_yield (data : PriceFrame) (dividends : list (Timestamp * R))
    (start_date end_date : Timestamp) : result (option float64) :=
  if negb (empty dividends) then
    let dividends := in_window start_date end_date dividends in
    first <- iloc_first (adj_close data) ;;
    Ok (Some (fdiv (sum (amounts dividends)) first))
  else Ok None.

(** [data['Year'] = data.index.year],
    [annual_data = data.groupby('Year').last()],
    [annual_table = annual_data[['Investment Value']].reset_index()] *)
Definition annual_table (initial_investment : Z) (data : PriceFrame) : list (Z * float64) :=
  groupby_last (map year (index (adj_close data)))
               (values (investment_value initial_investment data)).

(** What the page shows after a successful run. *)
Record Analysis : Type := {
  shown_table : list (Z * float64);
  shown_cagr : float64;
  shown_volatility : float64;
  shown_sharpe : float64;
  shown_beta : option float64;
  shown_dividend_yield : option float64;
  shown_chart : Series (I := Date)
}.

Inductive page : Type :=
| StError (msg : string)
| Report (a : Analysis)
| Uncaught (e : exn).

Definition no_data_message (etf_symbol : string) : string :=
  ("'" ++ etf_symbol
   ++ "' is not a valid ETF symbol or has no data for the selected date range.")%string.

(** The [else] branch of [if data.empty].  The assignment of the return
    column comes first and may raise; the column it stores otherwise is
    [daily_return data], from which the metrics are computed. *)
Definition metrics (P : Provider) (etf_symbol : string)
    (start_date end_date : Timestamp) (initial_investment : Z)
    (data : PriceFrame) : result Analysis :=
  _ <- assign_daily_return data ;;
  c <- cagr data start_date end_date ;;
  let market_data := download P "^GSPC" start_date end_date in
  dy <- dividend_yield data (ticker_dividends P etf_symbol) start_date end_date ;;
  Ok {| shown_table := annual_table initial_investment data;
        shown_cagr := c;
        shown_volatility := annualized_volatility data;
        shown_sharpe := annualized_sharpe_ratio data;
        shown_beta := beta data market_data;
        shown_dividend_yield := dy;
        shown_chart := investment_value initial_investment data |}.

(** The body of [if st.button("Analyze Growth")]. *)
Definition analyze (P : Provider) (etf_symbol : string)
    (start_date end_date : Timestamp) (initial_investment : Z) : page :=
  if (start_date >=? end_date)%Z then
    StError "End date must be after the start date."
  else if (etf_symbol =? "")%string then
    StError "Please enter an ETF symbol."
  else
    let data := download P etf_symbol start_date end_date in
    if empty data then StError (no_data_message etf_symbol)
    else match metrics P etf_symbol start_date end_date initial_investment data with
         | Ok a => Report a
         | Raise e => Uncaught e
         end.

End ETF.

(* ===================================================================== *)
(** * Reference formulations used in the statements *)
(* ===================================================================== *)

Module Spec.

Import Pandas ETF.

(** The values of [pct_change], unfolded along the rows: every value is
    divided by the one before it. *)
Fixpoint pct_vals (prev : float64) (vs : list float64) : list float64 :=
  match vs with
  | [] => []
  | v :: rest => fsub (fdiv v prev) (Fin 1) :: pct_vals v rest
  end.

Definition prices (data : PriceFrame) : list R := map snd data.

(** The daily returns as real numbers: [price[i] / price[i-1] - 1]. *)
Fixpoint returns_from (prev : R) (ps : list R) : list R :=
  match ps with
  | [] => []
  | p :: rest => (p / prev - 1) :: returns_from p rest
  end.

Definition returns (data : PriceFrame) : list R :=
  match prices data with
  | [] => []
  | p0 :: rest => returns_from p0 rest
  end.

Fixpoint Rsum (rs : list R) : R :=
  match rs with
  | [] => 0
  | r :: rest => r + Rsum rest
  end.

Definition Rmean (rs : list R) : R := Rsum rs / INR (length rs).

(** Sample variance: squared deviations from the mean, divided by [n - 1]. *)
Definition sample_variance (rs : list R) : R :=
  Rsum (map (fun r => (r - Rmean rs) * (r - Rmean rs)) rs) / (INR (length rs) - 1).

Definition sample_std (rs : list R) : R := sqrt (sample_variance rs).

Definition nonzero_prices (data : PriceFrame) : Prop :=
  Forall (fun p => p <> 0) (prices data).

(** The dates of the rows that carry a daily return. *)
Definition return_dates (data : PriceFrame) : list Date :=
  index (dropna (pct_change (adj_close data))).

(** Row [(d, v)] of a column is the last row of year [y] that has a value. *)
Definition last_available (col : Series) (y : Z) (d : Date) (v : float64) : Prop :=
  In (d, v) col /\ year d = y /\ v <> NaN
  /\ forall d' v', In (d', v') col -> year d' = y -> v' <> NaN -> date_le d' d.

(** The value of a column at the end of year [y]: the value on the last
    date of that year that has one, missing when the year has none. *)
Definition year_end_value (col : Series) (y : Z) (v : float64) : Prop :=
  (exists d, last_available col y d v)
  \/ (v = NaN /\ forall d' v', In (d', v') col -> year d' = y -> v' = NaN).

(** [d] is the last trading date of year [y] in the frame. *)
Definition last_trading_date (data : PriceFrame) (y : Z) (d : Date) : Prop :=
  In d (map fst data) /\ year d = y
  /\ forall d', In d' (map fst data) -> year d' = y -> date_le d' d.

(** The rows of [other] whose label occurs in [s]. *)
Definition matched (s other : Series (I := Date)) : Series :=
  List.filter (fun row => existsb (date_eqb (fst row)) (index s)) other.

(** Beta recomputed from the aligned return series alone: covariance and
    benchmark variance both taken over the dates on which the ticker and
    the benchmark have a return. *)
Definition beta_on_matched_dates (data market_data : PriceFrame) : float64 :=
  fdiv (cov date_eqb (daily_return data) (market_return market_data))
       (var (matched (dropna (daily_return data)) (market_return market_data))).

(** The Sharpe ratio in its other formulation: the mean excess return
    divided by the standard deviation of the excess returns. *)
Definition sharpe_on_excess_volatility (data : PriceFrame) : float64 :=
  fdiv (mean (daily_excess_return data)) (std (daily_excess_return data)).

Definition positive_prices (data : PriceFrame) : Prop :=
  Forall (fun p => 0 < p) (prices data).

(** The index of a price frame increases strictly with the rows. *)
Definition increasing_dates (data : PriceFrame) : Prop :=
  StronglySorted date_lt (map fst data).

End Spec.

(* ===================================================================== *)
(** * Sample inputs *)
(* ===================================================================== *)

Module Examples.

Import Pandas ETF.

(** 2023-01-03 .. 2023-01-05 at 100, 102, 101. *)
Definition three_days : PriceFrame :=
  [(mkDate 2023 1 3, 100); (mkDate 2023 1 4, 102); (mkDate 2023 1 5, 101)].

(** Three trading days without any price move. *)
Definition flat : PriceFrame :=
  [(mkDate 2023 1 3, 100); (mkDate 2023 1 4, 100); (mkDate 2023 1 5, 100)].

(** A single trading day. *)
Definition one_day : PriceFrame := [(mkDate 2023 1 3, 100)].

(** Instants of 2023-01-03 and 2023-01-07, 00:00 US Eastern (UTC-5), and
    of a dividend paid on 2022-12-16. *)
Definition jan_03 : Timestamp := 1672722000000000000%Z.
Definition jan_07 : Timestamp := 1673067600000000000%Z.
Definition dec_16 : Timestamp := 1671166800000000000%Z.

(** A fund listed on 2023-01-04 and a benchmark with one more day. *)
Definition young_fund : PriceFrame :=
  [(mkDate 2023 1 4, 1); (mkDate 2023 1 5, 1); (mkDate 2023 1 6, 2)].

Definition benchmark : PriceFrame :=
  [(mkDate 2023 1 3, 1); (mkDate 2023 1 4, 2); (mkDate 2023 1 5, 2);
   (mkDate 2023 1 6, 4)].

(** A frame in which 2023-01-04 comes twice. *)
Definition repeated_date : PriceFrame :=
  [(mkDate 2023 1 3, 100); (mkDate 2023 1 4, 102); (mkDate 2023 1 4, 101)].

(** A price of 0 between two prices of 1. *)
Definition zero_between : PriceFrame :=
  [(mkDate 2023 1 3, 1); (mkDate 2023 1 4, 0); (mkDate 2023 1 5, 1)].


(** A provider that serves the same frame for every symbol. *)
Definition serve (data : PriceFrame) (dividends : list (Timestamp * R)) : Provider :=
  {| download := fun _ _ _ => data;
     ticker_dividends := fun _ => dividends |}.

(** A provider with a frame for the ticker and one for the benchmark. *)
Definition serve_both (data market_data : PriceFrame)
    (dividends : list (Timestamp * R)) : Provider :=
  {| download := fun symbol _ _ =>
       if (symbol =? "^GSPC")%string then market_data else data;
     ticker_dividends := fun _ => dividends |}.

End Examples.

(* ===================================================================== *)
(** * The page around the analysis *)
(* ===================================================================== *)

Module Page.

Import Pandas ETF.

(** [high_volume_etfs]: the options of the select box. *)
Definition high_volume_etfs : list string :=
  ["SPY"; "IVV"; "VOO"; "QQQ"; "VTI"; "EEM"; "IWM"; "XLK"; "XLF"; "TLT";
   "Enter your own"]%string.

(** [str.upper()], for ASCII text only: the letters a..z go to A..Z, every
    other ASCII character stays.  Text outside ASCII, which Python maps by
    the Unicode case tables, is not modelled; nothing below depends on more
    than [upper s] being empty exactly when [s] is. *)
Definition upper_char (c : Ascii.ascii) : Ascii.ascii :=
  let n := Ascii.nat_of_ascii c in
  if ((97 <=? n) && (n <=? 122))%nat then Ascii.ascii_of_nat (n - 32) else c.

Fixpoint upper (s : string) : string :=
  match s with
  | EmptyString => EmptyString
  | String c rest => String (upper_char c) (upper rest)
  end.

(** The symbol to analyze: the selected option, or the text typed into
    "Enter ETF Symbol" in upper case when "Enter your own" is selected. *)
Definition etf_symbol (selected_etf typed : string) : string :=
  if (selected_etf =? "Enter your own")%string then upper typed else selected_etf.



(** A press of "Analyze Growth" with the widgets in a given state. *)
Definition on_analyze (P : Provider) (selected_etf typed : string)
    (start_date end_date : Timestamp) (initial_investment : Z) : page :=
  analyze P (etf_symbol selected_etf typed) start_date end_date initial_investment.

Section Display.

(** Python's format specifications [.2f] and [.2%], taken as given. *)
Variables fmt_2f fmt_2pct : float64 -> string.

(** The five [st.write] lines below the table. *)
Definition cagr_line (a : Analysis) : string :=
  ("**Annualized Return (CAGR):** " ++ fmt_2pct (shown_cagr a))%string.

Definition volatility_line (a : Analysis) : string :=
  ("**Volatility (Annualized):** " ++ fmt_2pct (shown_volatility a))%string.

Definition sharpe_line (a : Analysis) : string :=
  ("**Sharpe Ratio (Annualized):** " ++ fmt_2f (shown_sharpe a))%string.

Definition beta_line (a : Analysis) : string :=
  match shown_beta a with
  | Some b => ("**Beta (vs S&P 500):** " ++ fmt_2f b)%string
  | None => "Beta: N/A"%string
  end.

Definition dividend_line (a : Analysis) : string :=
  match shown_dividend_yield a with
  | Some dy => ("**Dividend Yield:** " ++ fmt_2pct dy)%string
  | None => "Dividend Yield: N/A"%string
  end.

Definition metric_lines (a : Analysis) : list string :=
  [cagr_line a; volatility_line a; sharpe_line a; beta_line a; dividend_line a].

End Display.

End Page.

(* ===================================================================== *)
(** * Further reference quantities *)
(* ===================================================================== *)

Module Quantities.

Import Pandas ETF Spec Page.

(** Every price of the frame multiplied by [k]. *)
Definition rescale (k : R) (data : PriceFrame) : PriceFrame :=
  map (fun row => (fst row, k * snd row)) data.




End Quantities.

(* ===================================================================== *)
(** * The same operations on binary64 values *)
(* ===================================================================== *)

(** The operations of [Pandas] and the return columns of [ETF] once more,
    on IEEE binary64 values with their rounding (Rocq's primitive floats),
    in the order in which numpy evaluates them.  Only the values of a column
    are kept: its dates play no role in these operations, and on distinct
    dates the return column is [pct_change] itself. *)
Module Binary64.

Import Stdlib.Floats.Floats.
Local Open Scope float_scope.

Definition isnan (x : float) : bool := negb (x =? x).

Definition of_count (n : nat) : float := of_uint63 (Uint63.of_Z (Z.of_nat n)).

Definition shift (vs : list float) : list float :=
  match vs with
  | [] => []
  | _ :: _ => nan :: removelast vs
  end.

(** [s / s.shift(1) - 1] *)
Definition pct_change (vs : list float) : list float :=
  map (fun vp => fst vp / snd vp - 1) (combine vs (shift vs)).

Definition fillna (c : float) (vs : list float) : list float :=
  map (fun v => if isnan v then c else v) vs.

Fixpoint cumprod_from (acc : float) (vs : list float) : list float :=
  match vs with
  | [] => []
  | v :: rest =>
      if isnan v then nan :: cumprod_from acc rest
      else acc * v :: cumprod_from (acc * v) rest
  end.

Definition cumprod (vs : list float) : list float := cumprod_from 1 vs.

(** numpy adds the elements of a short array from left to right, starting
    from 0 (its blocks of eight and its pairwise splitting only start with
    eight elements). *)
Definition fsum (vs : list float) : float := fold_left (fun acc v => acc + v) vs 0.

Definition count (vs : list float) : nat :=
  length (List.filter (fun v => negb (isnan v)) vs).

Definition nansum (vs : list float) : float := fsum (fillna 0 vs).

Definition nanmean (vs : list float) : float :=
  if (0 <? count vs)%nat then nansum vs / of_count (count vs) else nan.

Definition nanvar (ddof : nat) (vs : list float) : float :=
  let n := count vs in
  let cnt := if (n <=? ddof)%nat then nan else of_count n in
  let d := if (n <=? ddof)%nat then nan else of_count (n - ddof) in
  let avg := nansum vs / cnt in
  let sqr := map (fun v => if isnan v then 0 else (avg - v) * (avg - v)) vs in
  fsum sqr / d.

Definition std (vs : list float) : float := sqrt (nanvar 1 vs).

#[warnings="-inexact-float"]
Definition risk_free_rate : float := 0.02.

(** The columns and metrics of the script, from the list of adjusted
    close prices. *)
Definition daily_return (prices : list float) : list float := pct_change prices.

Definition cumulative_return (prices : list float) : list float :=
  cumprod (map (fun v => v + 1) (fillna 0 (pct_change prices))).

Definition investment_value (initial_investment : float) (prices : list float)
    : list float :=
  map (fun v => initial_investment * v) (cumulative_return prices).

Definition daily_volatility (prices : list float) : float :=
  std (daily_return prices).

Definition daily_excess_return (prices : list float) : list float :=
  map (fun v => v - risk_free_rate / 252) (daily_return prices).

Definition daily_sharpe_ratio (prices : list float) : float :=
  nanmean (daily_excess_return prices) / daily_volatility prices.

(** The other formulation: division by the standard deviation of the
    excess returns. *)
Definition sharpe_on_excess_volatility (prices : list float) : float :=
  nanmean (daily_excess_return prices) / std (daily_excess_return prices).

End Binary64.

(* ===================================================================== *)
(** * Arithmetic of the float model *)
(* ===================================================================== *)

Section FloatFacts.

Lemma Rzero_eq (r : R) : r = 0 -> Rzero r = true.
Proof. intros H. unfold Rzero. destruct (Req_EM_T r 0); [reflexivity | contradiction]. Qed.

Lemma Rzero_neq (r : R) : r <> 0 -> Rzero r = false.
Proof. intros H. unfold Rzero. destruct (Req_EM_T r 0); [contradiction | reflexivity]. Qed.

Lemma Rneg_lt (r : R) : r < 0 -> Rneg r = true.
Proof. intros H. unfold Rneg. destruct (Rlt_dec r 0); [reflexivity | contradiction]. Qed.

Lemma Rneg_ge (r : R) : 0 <= r -> Rneg r = false.
Proof. intros H. unfold Rneg. destruct (Rlt_dec r 0); [lra | reflexivity]. Qed.

Lemma fdiv_fin (a b : R) : b <> 0 -> fdiv (Fin a) (Fin b) = Fin (a / b).
Proof. intros H. unfold fdiv. now rewrite (Rzero_neq b H). Qed.

Lemma fdiv_pos_zero (a : R) : 0 < a -> fdiv (Fin a) (Fin 0) = Inf false.
Proof.
  intros H. unfold fdiv.
  rewrite (Rzero_eq 0 eq_refl), (Rzero_neq a), (Rneg_ge a); [reflexivity | lra | lra].
Qed.

Lemma fdiv_neg_zero (a : R) : a < 0 -> fdiv (Fin a) (Fin 0) = Inf true.
Proof.
  intros H. unfold fdiv.
  rewrite (Rzero_eq 0 eq_refl), (Rzero_neq a), (Rneg_lt a); [reflexivity | lra | lra].
Qed.

Lemma fdiv_zero_zero : fdiv (Fin 0) (Fin 0) = NaN.
Proof. unfold fdiv. now rewrite (Rzero_eq 0 eq_refl). Qed.

Lemma fsqrt_fin (a : R) : 0 <= a -> fsqrt (Fin a) = Fin (sqrt a).
Proof. intros H. unfold fsqrt. now rewrite (Rneg_ge a H). Qed.

Lemma Fin_eq (a b : R) : a = b -> Fin a = Fin b.
Proof. intros ->. reflexivity. Qed.

Lemma fpow_pos (a y : R) : 0 < a -> a <> 1 -> y <> 0 -> fpow (Fin a) y = Fin (Rpower a y).
Proof.
  intros Ha H1 Hy. unfold fpow.
  rewrite (Rzero_neq y Hy), (Rzero_neq (a - 1)), (Rzero_neq a), (Rneg_ge a);
    [reflexivity | lra | lra | lra].
Qed.

Lemma fpow_one (y : R) : fpow (Fin 1) y = Fin 1.
Proof.
  unfold fpow. destruct (Rzero y); [reflexivity |].
  rewrite (Rzero_eq (1 - 1)); [reflexivity | lra].
Qed.

Lemma Rpower_base_1 (y : R) : Rpower 1 y = 1.
Proof. unfold Rpower. rewrite ln_1, Rmult_0_r. apply exp_0. Qed.

(** On a positive base [fpow] is the real power, whatever the exponent. *)
Lemma fpow_Rpower (a y : R) : 0 < a -> fpow (Fin a) y = Fin (Rpower a y).
Proof.
  intros Ha. unfold fpow, Rzero.
  destruct (Req_EM_T y 0) as [-> | Hy].
  - now rewrite Rpower_O.
  - destruct (Req_EM_T (a - 1) 0) as [E | E].
    + replace a with 1 by lra. now rewrite Rpower_base_1.
    + destruct (Req_EM_T a 0); [lra |]. now rewrite (Rneg_ge a) by lra.
Qed.

Lemma sqrt_252_eq : ETF.sqrt_252 = Fin (sqrt 252).
Proof.
  unfold ETF.sqrt_252. rewrite fpow_Rpower by lra.
  apply Fin_eq. replace 0.5 with (/ 2) by lra. apply Rpower_sqrt. lra.
Qed.

End FloatFacts.

(* ===================================================================== *)
(** * Series operations, row by row *)
(* ===================================================================== *)

Section SeriesFacts.

Import Pandas Spec.

Context {I : Type}.
Implicit Types (s : Series (I := I)) (vs : list float64) (idx : list I).

Lemma values_combine idx vs :
  length idx = length vs -> values (combine idx vs) = vs.
Proof.
  revert vs. induction idx as [| i idx IH]; intros [| v vs] H; simpl in *;
    try reflexivity; try discriminate.
  f_equal. apply IH. lia.
Qed.

Lemma index_combine idx vs :
  length idx = length vs -> index (combine idx vs) = idx.
Proof.
  revert vs. induction idx as [| i idx IH]; intros [| v vs] H; simpl in *;
    try reflexivity; try discriminate.
  f_equal. apply IH. lia.
Qed.

Lemma length_index s : length (index s) = length s.
Proof. apply length_map. Qed.

Lemma length_values s : length (values s) = length s.
Proof. apply length_map. Qed.

Lemma length_pct_vals prev vs : length (pct_vals prev vs) = length vs.
Proof. revert prev. induction vs as [| v vs IH]; intros prev; simpl; [| rewrite IH]; reflexivity. Qed.

Lemma pct_shift_tail v vs :
  map (fun vp => fsub (fdiv (fst vp) (snd vp)) (Fin 1))
      (combine vs (removelast (v :: vs)))
  = pct_vals v vs.
Proof.
  revert v. induction vs as [| w vs IH]; intros v; [reflexivity |].
  change (removelast (v :: w :: vs)) with (v :: removelast (w :: vs)).
  simpl combine. simpl map. simpl pct_vals. f_equal. apply IH.
Qed.

Lemma pct_shift vs :
  map (fun vp => fsub (fdiv (fst vp) (snd vp)) (Fin 1)) (combine vs (shift vs))
  = pct_vals NaN vs.
Proof.
  destruct vs as [| v vs]; [reflexivity |].
  unfold shift. simpl combine. simpl map. simpl pct_vals. f_equal.
  apply pct_shift_tail.
Qed.

Lemma pct_change_eq s : pct_change s = combine (index s) (pct_vals NaN (values s)).
Proof. unfold pct_change. now rewrite pct_shift. Qed.

Lemma values_pct_change s : values (pct_change s) = pct_vals NaN (values s).
Proof.
  rewrite pct_change_eq. apply values_combine.
  now rewrite length_pct_vals, length_index, length_values.
Qed.

Lemma index_pct_change s : index (pct_change s) = index s.
Proof.
  rewrite pct_change_eq. apply index_combine.
  now rewrite length_pct_vals, length_index, length_values.
Qed.

Lemma values_fillna c s :
  values (fillna c s) = map (fun v => if isnan v then c else v) (values s).
Proof. unfold values, fillna. rewrite !map_map. reflexivity. Qed.

Lemma index_fillna c s : index (fillna c s) = index s.
Proof. unfold index, fillna. rewrite map_map. reflexivity. Qed.

Lemma values_add c s : values (add c s) = map (fun v => fadd v c) (values s).
Proof. unfold values, add. rewrite !map_map. reflexivity. Qed.

Lemma index_add c s : index (add c s) = index s.
Proof. unfold index, add. rewrite map_map. reflexivity. Qed.

Lemma values_sub c s : values (sub c s) = map (fun v => fsub v c) (values s).
Proof. unfold values, sub. rewrite !map_map. reflexivity. Qed.

Lemma values_rmul c s : values (rmul c s) = map (fun v => fmul c v) (values s).
Proof. unfold values, rmul. rewrite !map_map. reflexivity. Qed.

Lemma index_rmul c s : index (rmul c s) = index s.
Proof. unfold index, rmul. rewrite map_map. reflexivity. Qed.

Lemma length_cumprod_from acc vs : length (cumprod_from acc vs) = length vs.
Proof.
  revert acc. induction vs as [| v vs IH]; intros acc; simpl; [reflexivity |].
  destruct (isnan v); simpl; now rewrite IH.
Qed.

Lemma values_cumprod s : values (cumprod s) = cumprod_from (Fin 1) (values s).
Proof.
  unfold cumprod. apply values_combine.
  now rewrite length_cumprod_from, length_index, length_values.
Qed.

Lemma index_cumprod s : index (cumprod s) = index s.
Proof.
  unfold cumprod. apply index_combine.
  now rewrite length_cumprod_from, length_index, length_values.
Qed.

Lemma iloc_first_values s :
  iloc_first s = match values s with [] => Raise IndexError | v :: _ => Ok v end.
Proof. destruct s as [| [i v] s]; reflexivity. Qed.

Lemma iloc_last_values s :
  s <> [] -> iloc_last s = Ok (last (values s) NaN).
Proof.
  induction s as [| [i v] s IH]; [congruence |]. intros _.
  destruct s as [| [j w] s]; [reflexivity |].
  change (iloc_last ((i, v) :: (j, w) :: s)) with (iloc_last ((j, w) :: s)).
  rewrite IH by discriminate. reflexivity.
Qed.

End SeriesFacts.

(* ===================================================================== *)
(** * The growth curve *)
(* ===================================================================== *)

Section Growth.

Import Pandas ETF Spec.

(** One row of [.fillna(0).add(1)]. *)
Lemma values_adj_close data : values (adj_close data) = map Fin (prices data).
Proof. unfold values, adj_close, prices. rewrite !map_map. reflexivity. Qed.

Lemma index_adj_close data : index (adj_close data) = map fst data.
Proof. unfold index, adj_close. rewrite map_map. reflexivity. Qed.

Lemma values_cumulative_return data :
  values (cumulative_return data)
  = cumprod_from (Fin 1)
      (map (fun v => fadd (if isnan v then Fin 0 else v) (Fin 1))
           (pct_vals NaN (map Fin (prices data)))).
Proof.
  unfold cumulative_return.
  rewrite values_cumprod, values_add, values_fillna, values_pct_change,
    values_adj_close, map_map.
  reflexivity.
Qed.

Lemma index_cumulative_return data :
  index (cumulative_return data) = map fst data.
Proof.
  unfold cumulative_return.
  now rewrite index_cumprod, index_add, index_fillna, index_pct_change, index_adj_close.
Qed.

Lemma values_investment_value init data :
  values (investment_value init data)
  = map (fun v => fmul (Fin (IZR init)) v) (values (cumulative_return data)).
Proof. unfold investment_value. apply values_rmul. Qed.

Lemma index_investment_value init data :
  index (investment_value init data) = map fst data.
Proof. unfold investment_value. now rewrite index_rmul, index_cumulative_return. Qed.

(** The running product over the rows after the first: with non-zero
    prices the factors cancel. *)
Lemma cumprod_telescope (p0 : R) (rest : list R) :
  p0 <> 0 ->
  Forall (fun p => p <> 0) rest ->
  forall prev c, prev <> 0 -> c = prev / p0 ->
  cumprod_from (Fin c)
    (map (fun v => fadd (if isnan v then Fin 0 else v) (Fin 1))
         (pct_vals (Fin prev) (map Fin rest)))
  = map (fun p => Fin (p / p0)) rest.
Proof.
  intros Hp0. induction 1 as [| p rest Hp Hrest IH]; intros prev c Hprev Hc;
    [reflexivity |].
  cbn [map pct_vals]. rewrite (fdiv_fin p prev Hprev).
  cbn [fsub isnan fadd cumprod_from fmul].
  assert (E : c * (p / prev - 1 + 1) = p / p0) by (subst c; field; split; assumption).
  rewrite E. f_equal. apply IH; [assumption | reflexivity].
Qed.

Lemma cumulative_return_telescope d0 p0 rest :
  p0 <> 0 ->
  Forall (fun p => p <> 0) (prices rest) ->
  values (cumulative_return ((d0, p0) :: rest))
  = map (fun p => Fin (p / p0)) (p0 :: prices rest).
Proof.
  intros Hp0 Hrest. rewrite values_cumulative_return.
  cbn [prices map pct_vals snd fdiv fsub isnan fadd cumprod_from fmul].
  f_equal.
  - apply Fin_eq. field. assumption.
  - apply cumprod_telescope; try assumption. field. assumption.
Qed.

Lemma Forall_pos_nonzero (ps : list R) :
  Forall (fun p => 0 < p) ps -> Forall (fun p => p <> 0) ps.
Proof. apply Forall_impl. intros p Hp. lra. Qed.

Lemma series_nth_error {I : Type} (s : Series (I := I)) (n : nat) (i : I) (v : float64) :
  nth_error (index s) n = Some i ->
  nth_error (values s) n = Some v ->
  nth_error s n = Some (i, v).
Proof.
  revert n. induction s as [| [j w] s IH]; intros [| n]; simpl; try discriminate.
  - intros [= ->] [= ->]. reflexivity.
  - apply IH.
Qed.

End Growth.

Section GrowthRows.

Import Pandas ETF Spec.

Lemma series_ext {I : Type} (s t : Series (I := I)) :
  index s = index t -> values s = values t -> s = t.
Proof.
  revert t. induction s as [| [i v] s IH]; intros [| [j w] t]; simpl;
    try discriminate; [reflexivity |].
  intros [= -> Hi] [= -> Hv]. f_equal. now apply IH.
Qed.

Lemma last_map_default {A B : Type} (f : A -> B) (l : list A) (a : A) (b : B) :
  l <> [] -> last (map f l) b = f (last l a).
Proof.
  induction l as [| x l IH]; [congruence |]. intros _.
  destruct l as [| y l]; [reflexivity |].
  change (last (map f (x :: y :: l)) b) with (last (map f (y :: l)) b).
  change (last (x :: y :: l) a) with (last (y :: l) a).
  apply IH. discriminate.
Qed.

(** With non-zero prices, row [i] of the growth curve is
    [price[i] / price[0]]. *)
Lemma cumulative_return_rows d0 p0 rest :
  p0 <> 0 ->
  Forall (fun p => p <> 0) (prices rest) ->
  cumulative_return ((d0, p0) :: rest)
  = map (fun row => (fst row, Fin (snd row / p0))) ((d0, p0) :: rest).
Proof.
  intros Hp0 Hrest. apply series_ext.
  - rewrite index_cumulative_return. unfold index. rewrite map_map. reflexivity.
  - rewrite cumulative_return_telescope by assumption.
    unfold values, prices. change (p0 :: map snd rest) with (map snd ((d0, p0) :: rest)).
    rewrite !map_map. reflexivity.
Qed.

Lemma investment_value_rows init d0 p0 rest :
  p0 <> 0 ->
  Forall (fun p => p <> 0) (prices rest) ->
  investment_value init ((d0, p0) :: rest)
  = map (fun row => (fst row, Fin (IZR init * snd row / p0))) ((d0, p0) :: rest).
Proof.
  intros Hp0 Hrest. unfold investment_value.
  rewrite cumulative_return_rows by assumption.
  unfold rmul. rewrite map_map. apply map_ext. intros [d p]. cbn [fst snd fmul].
  f_equal. apply Fin_eq. field. assumption.
Qed.

Lemma total_return_rows d0 p0 rest :
  p0 <> 0 ->
  Forall (fun p => p <> 0) (prices rest) ->
  total_return ((d0, p0) :: rest)
  = Ok (Fin (last (prices ((d0, p0) :: rest)) 0 / p0 - 1)).
Proof.
  intros Hp0 Hrest. unfold total_return.
  rewrite iloc_last_values.
  - rewrite cumulative_return_telescope by assumption.
    change (p0 :: prices rest) with (prices ((d0, p0) :: rest)).
    rewrite (last_map_default (fun p => Fin (p / p0)) _ 0 NaN) by discriminate.
    reflexivity.
  - rewrite cumulative_return_rows by assumption. discriminate.
Qed.

End GrowthRows.

(* ===================================================================== *)
(** * Properties of the growth curve *)
(* ===================================================================== *)

(** Side conditions on the prices of a sample frame. *)
Ltac solve_prices :=
  unfold Spec.positive_prices, Spec.nonzero_prices, Spec.prices;
  cbn [map snd];
  repeat apply Forall_cons; try apply Forall_nil; lra.

(** Side condition on the dates of a sample frame. *)
Ltac solve_dates :=
  unfold Spec.increasing_dates; cbn [map fst];
  repeat first [apply SSorted_nil | apply SSorted_cons
               | apply Forall_nil | apply Forall_cons];
  unfold ETF.date_lt; cbn [ETF.year ETF.month ETF.day]; lia.

Section GrowthClaims.

Import Pandas ETF Spec.

(** C3. For every non-empty price frame the first entry of
    ['Cumulative Return'] is exactly 1 and the first entry of
    ['Investment Value'] is exactly the initial investment: the missing first
    daily return is filled with 0, its row is kept, and the curve has one row
    per price. *)
Theorem growth_starts_at_initial_investment
    (data : PriceFrame) (initial_investment : Z) :
  data <> [] ->
  iloc_first (cumulative_return data) = Ok (Fin 1)
  /\ iloc_first (investment_value initial_investment data)
     = Ok (Fin (IZR initial_investment))
  /\ index (cumulative_return data) = map fst data
  /\ index (investment_value initial_investment data) = map fst data.
Proof.
  intros Hne. destruct data as [| [d0 p0] rest]; [congruence |].
  assert (Hc : exists tl,
             values (cumulative_return ((d0, p0) :: rest)) = Fin 1 :: tl).
  { rewrite values_cumulative_return.
    cbn [prices map pct_vals snd fdiv fsub isnan fadd cumprod_from fmul].
    eexists. f_equal. apply Fin_eq. lra. }
  destruct Hc as [tl Hc].
  split; [| split; [| split]].
  - rewrite iloc_first_values, Hc. reflexivity.
  - rewrite iloc_first_values, values_investment_value, Hc.
    cbn [map fmul]. f_equal. apply Fin_eq. lra.
  - apply index_cumulative_return.
  - apply index_investment_value.
Qed.

Lemma growth_starts_at_initial_investment_witness :
  [(mkDate 2023 1 3, 100)] <> []
  /\ iloc_first (cumulative_return [(mkDate 2023 1 3, 100)]) = Ok (Fin 1)
  /\ iloc_first (investment_value 1000 [(mkDate 2023 1 3, 100)]) = Ok (Fin (IZR 1000))
  /\ index (cumulative_return [(mkDate 2023 1 3, 100)]) = [mkDate 2023 1 3]
  /\ index (investment_value 1000 [(mkDate 2023 1 3, 100)]) = [mkDate 2023 1 3].
Proof.
  split; [discriminate |].
  apply (growth_starts_at_initial_investment [(mkDate 2023 1 3, 100)] 1000).
  discriminate.
Defined.

(** C10, as amended. In exact arithmetic, for every price frame whose
    adjusted close prices are all strictly positive the cumulative product
    telescopes: row [i] of ['Cumulative Return'] is [price[i] / price[0]],
    row [i] of ['Investment Value'] is
    [initial_investment * price[i] / price[0]] for every initial investment,
    which is non-negative when the initial investment is and negative when
    the initial investment is, and
    [total_return = price[last] / price[0] - 1]. *)
Theorem growth_telescopes
    (data : PriceFrame) (initial_investment : Z) (i : nat) (d : Date) (p : R) :
  positive_prices data ->
  nth_error data i = Some (d, p) ->
  exists p0 : R,
    hd_error (prices data) = Some p0
    /\ nth_error (cumulative_return data) i = Some (d, Fin (p / p0))
    /\ nth_error (investment_value initial_investment data) i
       = Some (d, Fin (IZR initial_investment * p / p0))
    /\ ((0 <= initial_investment)%Z -> 0 <= IZR initial_investment * p / p0)
    /\ ((initial_investment < 0)%Z -> IZR initial_investment * p / p0 < 0)
    /\ total_return data = Ok (Fin (last (prices data) 0 / p0 - 1)).
Proof.
  intros Hpos Hrow.
  destruct data as [| [d0 p0] rest]; [destruct i; discriminate |].
  unfold positive_prices in Hpos. cbn [prices map snd] in Hpos.
  assert (Hp0 : 0 < p0) by (inversion Hpos; assumption).
  assert (Hrest : Forall (fun q => q <> 0) (prices rest)).
  { apply Forall_pos_nonzero. inversion Hpos; assumption. }
  assert (Hp : 0 < p).
  { apply nth_error_In in Hrow.
    rewrite Forall_forall in Hpos. apply Hpos.
    change (p0 :: map snd rest) with (map snd ((d0, p0) :: rest)).
    apply (in_map snd) in Hrow. exact Hrow. }
  assert (Hq : 0 < p / p0) by (apply Rdiv_lt_0_compat; assumption).
  exists p0. split; [reflexivity |]. split; [| split; [| split; [| split]]].
  - rewrite cumulative_return_rows by (assumption || lra).
    rewrite nth_error_map, Hrow. reflexivity.
  - rewrite investment_value_rows by (assumption || lra).
    rewrite nth_error_map, Hrow. reflexivity.
  - intros Hinit. apply IZR_le in Hinit.
    replace (IZR initial_investment * p / p0)
      with (IZR initial_investment * (p / p0)) by (unfold Rdiv; ring).
    apply Rmult_le_pos; lra.
  - intros Hinit. apply IZR_lt in Hinit.
    replace (IZR initial_investment * p / p0)
      with (IZR initial_investment * (p / p0)) by (unfold Rdiv; ring).
    nra.
  - apply total_return_rows; [lra | assumption].
Qed.

Lemma growth_telescopes_witness :
  positive_prices Examples.three_days
  /\ nth_error Examples.three_days 1 = Some (mkDate 2023 1 4, 102)
  /\ exists p0 : R,
       hd_error (prices Examples.three_days) = Some p0
       /\ nth_error (cumulative_return Examples.three_days) 1
          = Some (mkDate 2023 1 4, Fin (102 / p0))
       /\ nth_error (investment_value 1000 Examples.three_days) 1
          = Some (mkDate 2023 1 4, Fin (IZR 1000 * 102 / p0))
       /\ ((0 <= 1000)%Z -> 0 <= IZR 1000 * 102 / p0)
       /\ ((1000 < 0)%Z -> IZR 1000 * 102 / p0 < 0)
       /\ total_return Examples.three_days
          = Ok (Fin (last (prices Examples.three_days) 0 / p0 - 1)).
Proof.
  assert (Hpos : positive_prices Examples.three_days)
    by (unfold Examples.three_days; solve_prices).
  split; [exact Hpos |]. split; [reflexivity |].
  apply (growth_telescopes Examples.three_days 1000 1 (mkDate 2023 1 4) 102);
    [exact Hpos | reflexivity].
Defined.

Lemma negative_investment_value :
  positive_prices Examples.one_day
  /\ nth_error (investment_value (-1000) Examples.one_day) 0
     = Some (mkDate 2023 1 3, Fin (-1000))
  /\ ~ fle (Fin 0) (Fin (-1000)).
Proof.
  unfold Examples.one_day. split; [solve_prices |]. split.
  - rewrite investment_value_rows by (try apply Forall_nil; lra).
    cbn [map nth_error fst snd]. do 2 f_equal. apply Fin_eq. lra.
  - cbn [fle]. lra.
Qed.

End GrowthClaims.

Section GrowthRounding.

Import Stdlib.Floats.Floats.
Import Pandas ETF Spec.

(** C10, as stated, fails twice.  The amount typed into the page may be
    negative, and then the investment value is negative although every price
    is positive.  And the equalities are not those of the binary64 run: on
    the prices 3, 7, 11, 13 the cumulative product of the rounded factors
    ends on 3.666666666666667 and 4.333333333333334 where the quotients
    [11/3] and [13/3] are 3.6666666666666665 and 4.333333333333333. *)
#[warnings="-inexact-float"]
Lemma growth_is_signed_and_rounded :
  (positive_prices Examples.one_day
   /\ nth_error (investment_value (-1000) Examples.one_day) 0
      = Some (mkDate 2023 1 3, Fin (-1000))
   /\ ~ fle (Fin 0) (Fin (-1000)))
  /\ Binary64.cumulative_return [3; 7; 11; 13]%float
     = [1; 2.3333333333333335; 3.666666666666667; 4.3333333333333339]%float
  /\ map (fun p => p / 3)%float [3; 7; 11; 13]%float
     = [1; 2.3333333333333335; 3.6666666666666665; 4.333333333333333]%float
  /\ (11 / 3 <? 3.666666666666667)%float = true
  /\ (13 / 3 <? 4.3333333333333339)%float = true.
Proof.
  split; [exact negative_investment_value |].
  repeat split; vm_compute; reflexivity.
Qed.

End GrowthRounding.

(* ===================================================================== *)
(** * The column of daily returns *)
(* ===================================================================== *)

Section Reindex.

Import Pandas.

Context {I : Type}.
Variable I_eqb : I -> I -> bool.
Hypothesis I_eqb_spec : forall i j, I_eqb i j = true <-> i = j.

Lemma I_eqb_refl i : I_eqb i i = true.
Proof. now apply I_eqb_spec. Qed.

Lemma I_eqb_neq i j : i <> j -> I_eqb i j = false.
Proof.
  intros H. destruct (I_eqb i j) eqn:E; [| reflexivity].
  apply I_eqb_spec in E. contradiction.
Qed.

Lemma lookup_not_in i (s : @Series I) : ~ In i (index s) -> lookup I_eqb i s = None.
Proof.
  induction s as [| [j w] s IH]; intros H; [reflexivity |]. simpl in *.
  rewrite I_eqb_neq by (intros ->; apply H; now left).
  apply IH. intros Hin. apply H. now right.
Qed.

Lemma lookup_in_index i (s : @Series I) :
  In i (index s) -> exists v, lookup I_eqb i s = Some v.
Proof.
  induction s as [| [j w] s IH]; intros H; [contradiction |]. simpl in *.
  destruct (I_eqb i j) eqn:E; [eexists; reflexivity |].
  destruct H as [-> | H]; [rewrite I_eqb_refl in E; discriminate | now apply IH].
Qed.

Lemma index_dropna_incl i (s : @Series I) : In i (index (dropna s)) -> In i (index s).
Proof.
  unfold index, dropna. rewrite !in_map_iff. intros [[j w] [E Hin]].
  apply filter_In in Hin. exists (j, w). now split.
Qed.

(** Looking a row up after [dropna] gives its value back, or nothing when
    the value was missing. *)
Lemma lookup_dropna i v (s : @Series I) :
  NoDup (index s) -> In (i, v) s ->
  match lookup I_eqb i (dropna s) with Some w => w | None => NaN end = v.
Proof.
  induction s as [| [j w] s IH]; intros Hnd Hin; [contradiction |].
  cbn [index map fst] in Hnd. inversion Hnd as [| ? ? Hnotin Hnd']; subst.
  destruct Hin as [[= -> ->] | Hin].
  - cbn [dropna filter snd]. destruct v; cbn [notna isnan negb lookup];
      try (rewrite I_eqb_refl; reflexivity).
    rewrite lookup_not_in; [reflexivity |].
    intros H. apply Hnotin. apply index_dropna_incl. exact H.
  - assert (Hij : i <> j).
    { intros ->. apply Hnotin. apply (in_map fst) in Hin. exact Hin. }
    cbn [dropna filter snd]. destruct (notna w).
    + cbn [lookup]. rewrite (I_eqb_neq i j Hij). now apply IH.
    + now apply IH.
Qed.

Lemma existsb_eqb_In (i : I) (l : list I) : existsb (I_eqb i) l = true <-> In i l.
Proof.
  rewrite existsb_exists. split.
  - intros (j & Hin & E). apply I_eqb_spec in E. now subst.
  - intros Hin. exists i. split; [exact Hin | apply I_eqb_refl].
Qed.

Lemma has_duplicates_false_iff (l : list I) :
  has_duplicates I_eqb l = false <-> NoDup l.
Proof.
  induction l as [| i l IH]; cbn [has_duplicates].
  - split; [constructor | reflexivity].
  - rewrite orb_false_iff, IH. split.
    + intros [He Hnd]. constructor; [| exact Hnd].
      intros Hin. apply existsb_eqb_In in Hin. congruence.
    + intros Hnd. inversion Hnd as [| ? ? Hnotin Hnd']; subst. split; [| exact Hnd'].
      destruct (existsb (I_eqb i) l) eqn:E; [| reflexivity].
      apply existsb_eqb_In in E. contradiction.
Qed.

Lemma labels_equal_length (l l' : list I) :
  labels_equal I_eqb l l' = true -> length l = length l'.
Proof.
  revert l'. induction l as [| i l IH]; intros [| j l'] H; cbn in H;
    try discriminate; [reflexivity |].
  apply andb_true_iff in H. destruct H as [_ H]. cbn [length]. f_equal. now apply IH.
Qed.

Lemma NoDup_index_dropna (s : @Series I) : NoDup (index s) -> NoDup (index (dropna s)).
Proof.
  unfold index. induction s as [| [i v] s IH]; intros H; [constructor |].
  cbn [map fst] in H. inversion H as [| ? ? Hnotin Hnd]; subst.
  cbn [dropna filter snd]. fold (dropna s). destruct (notna v); [| now apply IH].
  cbn [map fst]. constructor; [| now apply IH].
  intros Hin. apply Hnotin. now apply index_dropna_incl.
Qed.

(** Assigning [s.dropna()] to a column of the frame that [s] came from
    gives [s] back. *)
Lemma reindex_dropna (s : @Series I) :
  NoDup (index s) -> reindex I_eqb (index s) (dropna s) = s.
Proof.
  intros Hnd. unfold reindex, index. rewrite map_map.
  transitivity (map (fun x => x) s); [| apply map_id].
  apply map_ext_in. intros [i v] Hin. cbn [fst].
  f_equal. now apply lookup_dropna.
Qed.

End Reindex.

Section DailyReturns.

Import Pandas ETF Spec.

Lemma date_eqb_spec (a b : Date) : date_eqb a b = true <-> a = b.
Proof.
  unfold date_eqb. destruct a as [ya ma da], b as [yb mb db]. cbn [year month day].
  rewrite !andb_true_iff, !Z.eqb_eq. split.
  - intros [[-> ->] ->]. reflexivity.
  - intros [= -> -> ->]. auto.
Qed.

Lemma date_lt_irrefl (a : Date) : ~ date_lt a a.
Proof. unfold date_lt. lia. Qed.

Lemma date_lt_trans (a b c : Date) : date_lt a b -> date_lt b c -> date_lt a c.
Proof. unfold date_lt. lia. Qed.

Lemma sorted_NoDup (ds : list Date) : StronglySorted date_lt ds -> NoDup ds.
Proof.
  induction 1 as [| d ds Hs IH Hall]; constructor; [| exact IH].
  intros Hin. rewrite Forall_forall in Hall.
  exact (date_lt_irrefl d (Hall d Hin)).
Qed.

Lemma daily_return_pct_change data :
  NoDup (map fst data) -> daily_return data = pct_change (adj_close data).
Proof.
  intros Hnd. unfold daily_return.
  rewrite <- (index_pct_change (adj_close data)).
  apply (reindex_dropna date_eqb date_eqb_spec).
  now rewrite index_pct_change, index_adj_close.
Qed.

Lemma pct_vals_Fin (rest : list R) :
  Forall (fun p => p <> 0) rest ->
  forall prev, prev <> 0 ->
  pct_vals (Fin prev) (map Fin rest) = map Fin (returns_from prev rest).
Proof.
  induction 1 as [| p rest Hp Hrest IH]; intros prev Hprev; [reflexivity |].
  cbn [map pct_vals returns_from]. rewrite (fdiv_fin p prev Hprev). cbn [fsub].
  f_equal. now apply IH.
Qed.

(** With distinct dates and non-zero prices the column of daily returns is
    a missing first entry followed by the real returns. *)
Lemma values_daily_return data :
  data <> [] ->
  NoDup (map fst data) ->
  nonzero_prices data ->
  values (daily_return data) = NaN :: map Fin (returns data).
Proof.
  intros Hne Hnd Hnz. rewrite daily_return_pct_change by exact Hnd.
  rewrite values_pct_change, values_adj_close.
  unfold returns. unfold nonzero_prices in Hnz.
  destruct (prices data) as [| p0 rest] eqn:E.
  - destruct data; [congruence | discriminate].
  - inversion Hnz; subst.
    cbn [map pct_vals fdiv fsub]. f_equal. now apply pct_vals_Fin.
Qed.

Lemma length_returns_from prev ps : length (returns_from prev ps) = length ps.
Proof. revert prev. induction ps as [| p ps IH]; intros prev; simpl; [| rewrite IH]; reflexivity. Qed.

Lemma length_returns data : data <> [] -> S (length (returns data)) = length data.
Proof.
  intros H. unfold returns, prices. destruct data as [| row rest]; [congruence |].
  cbn [map]. rewrite length_returns_from, length_map. reflexivity.
Qed.

End DailyReturns.

(* ===================================================================== *)
(** * Sums of finite values *)
(* ===================================================================== *)

Section FiniteSums.

Import Pandas ETF Spec.

Lemma fsum_Fin (rs : list R) : fsum (map Fin rs) = Fin (Rsum rs).
Proof. induction rs as [| r rs IH]; [reflexivity |]. simpl. now rewrite IH. Qed.

Lemma zero_na_Fin (rs : list R) : zero_na (map Fin rs) = map Fin rs.
Proof. unfold zero_na. rewrite map_map. reflexivity. Qed.

Lemma count_Fin (rs : list R) : count (map Fin rs) = length rs.
Proof.
  unfold count. induction rs as [| r rs IH]; [reflexivity |]. simpl. now rewrite IH.
Qed.

Lemma nansum_Fin (rs : list R) : nansum (map Fin rs) = Fin (Rsum rs).
Proof. unfold nansum. now rewrite zero_na_Fin, fsum_Fin. Qed.

Lemma Rsum_map_ext {A : Type} (f g : A -> R) (l : list A) :
  (forall a, In a l -> f a = g a) -> Rsum (map f l) = Rsum (map g l).
Proof.
  induction l as [| a l IH]; intros H; [reflexivity |]. simpl.
  rewrite (H a) by (left; reflexivity). rewrite IH; [reflexivity |].
  intros b Hb. apply H. right. exact Hb.
Qed.

Lemma Rsum_squares_nonneg (f : R -> R) (rs : list R) :
  0 <= Rsum (map (fun r => f r * f r) rs).
Proof.
  induction rs as [| r rs IH]; simpl; [lra |].
  pose proof (Rle_0_sqr (f r)) as H. unfold Rsqr in H. lra.
Qed.

Lemma INR_length_pos {A : Type} (l : list A) : l <> [] -> 0 < INR (length l).
Proof.
  intros H. destruct l as [| a l]; [congruence |].
  apply lt_0_INR. simpl. lia.
Qed.

End FiniteSums.

(* ===================================================================== *)
(** * One run of the analysis *)
(* ===================================================================== *)

Section Run.

Import Pandas ETF Spec.

Lemma py_truediv_ok (a b : R) : b <> 0 -> py_truediv a b = Ok (a / b).
Proof. intros H. unfold py_truediv. now rewrite (Rzero_neq b H). Qed.

Lemma py_truediv_zero (a : R) : py_truediv a 0 = Raise ZeroDivisionError.
Proof. unfold py_truediv. now rewrite (Rzero_eq 0 eq_refl). Qed.

Lemma years_nonzero (start_date end_date : Timestamp) :
  days (end_date - start_date) <> 0%Z -> years start_date end_date <> 0.
Proof.
  intros H. unfold years. apply not_0_IZR in H.
  intros E. apply H. unfold Rdiv in E.
  apply Rmult_integral in E. destruct E as [E | E]; [exact E |].
  exfalso. assert (H' : 365.25 <> 0) by lra.
  apply Rinv_neq_0_compat in H'. contradiction.
Qed.

Lemma cumulative_return_nonempty data : data <> [] -> cumulative_return data <> [].
Proof.
  intros H E. apply (f_equal index) in E.
  rewrite index_cumulative_return in E. destruct data; [congruence | discriminate].
Qed.

Lemma total_return_ok data :
  data <> [] ->
  total_return data = Ok (fsub (last (values (cumulative_return data)) NaN) (Fin 1)).
Proof.
  intros H. unfold total_return.
  rewrite iloc_last_values by (apply cumulative_return_nonempty; exact H).
  reflexivity.
Qed.

Lemma cagr_ok data start_date end_date :
  data <> [] ->
  days (end_date - start_date) <> 0%Z ->
  cagr data start_date end_date
  = Ok (fsub (fpow (fadd (Fin 1)
                      (fsub (last (values (cumulative_return data)) NaN) (Fin 1)))
                   (1 / years start_date end_date))
             (Fin 1)).
Proof.
  intros Hd Hy. unfold cagr, cagr_of. rewrite total_return_ok by exact Hd.
  cbn [bind]. rewrite py_truediv_ok by (apply years_nonzero; exact Hy).
  reflexivity.
Qed.

Lemma iloc_first_adj_close d0 p0 rest :
  iloc_first (adj_close ((d0, p0) :: rest)) = Ok (Fin p0).
Proof. reflexivity. Qed.

Lemma sum_amounts (dividends : list (Timestamp * R)) :
  sum (amounts dividends) = Fin (Rsum (map snd dividends)).
Proof.
  unfold sum, amounts, values.
  replace (map snd (map (fun d => (fst d, Fin (snd d))) dividends))
    with (map Fin (map snd dividends)) by (rewrite !map_map; reflexivity).
  apply nansum_Fin.
Qed.

(** The dividend-yield block, by cases on the whole dividend history. *)
Lemma dividend_yield_eq d0 p0 rest dividends start_date end_date :
  dividend_yield ((d0, p0) :: rest) dividends start_date end_date
  = Ok (match dividends with
        | [] => None
        | _ :: _ =>
            Some (fdiv (Fin (Rsum (map snd (in_window start_date end_date dividends))))
                       (Fin p0))
        end).
Proof.
  unfold dividend_yield. destruct dividends as [| dv dividends]; [reflexivity |].
  cbn [empty negb]. rewrite iloc_first_adj_close. cbn [bind].
  now rewrite sum_amounts.
Qed.

(** The first row never carries a return, so fewer rows carry one than the
    frame has. *)
Lemma return_dates_length data :
  data <> [] -> (S (length (return_dates data)) <= length data)%nat.
Proof.
  intros Hne. destruct data as [| [d0 p0] rest]; [congruence |].
  unfold return_dates. rewrite pct_change_eq, index_adj_close, values_adj_close.
  cbn [prices map snd fst pct_vals fdiv fsub combine dropna filter snd notna
       isnan negb length].
  apply le_n_S. unfold index. rewrite length_map.
  etransitivity; [apply filter_length_le |].
  rewrite length_combine, length_pct_vals, !length_map. lia.
Qed.

(** With non-zero prices every row but the first carries a return. *)
Lemma return_dates_nonzero data :
  nonzero_prices data -> return_dates data = tl (map fst data).
Proof.
  intros Hnz. destruct data as [| [d0 p0] rest]; [reflexivity |].
  unfold nonzero_prices in Hnz. cbn [prices map snd] in Hnz.
  inversion Hnz as [| ? ? Hp0 Hrest]; subst.
  unfold return_dates. rewrite pct_change_eq, index_adj_close, values_adj_close.
  cbn [prices map snd fst pct_vals fdiv fsub combine dropna filter snd notna
       isnan negb tl].
  fold (prices rest). rewrite pct_vals_Fin by assumption.
  generalize (returns_from p0 (prices rest)) (length_returns_from p0 (prices rest)).
  unfold prices. rewrite length_map.
  clear. intros rs. revert rs.
  induction rest as [| [d p] rest IH]; intros [| r rs] Hl; try discriminate;
    [reflexivity |].
  cbn [map fst combine filter snd notna isnan negb index]. f_equal.
  apply IH. now injection Hl.
Qed.

Lemma return_dates_NoDup data : NoDup (map fst data) -> NoDup (return_dates data).
Proof.
  intros H. unfold return_dates. apply NoDup_index_dropna.
  now rewrite index_pct_change, index_adj_close.
Qed.

(** The assignment of the return column raises exactly when two rows that
    carry a return have the same date. *)
Lemma assign_daily_return_eq data :
  data <> [] ->
  assign_daily_return data
  = if has_duplicates date_eqb (return_dates data) then Raise ValueError
    else Ok (daily_return data).
Proof.
  intros Hne. unfold assign_daily_return, setitem. fold (return_dates data).
  destruct (labels_equal date_eqb (return_dates data) (index (adj_close data))) eqn:E;
    [| reflexivity].
  exfalso. apply labels_equal_length in E.
  pose proof (return_dates_length data Hne) as Hl.
  rewrite index_adj_close, length_map in E. lia.
Qed.

Lemma assign_daily_return_ok data :
  data <> [] -> NoDup (return_dates data) ->
  assign_daily_return data = Ok (daily_return data).
Proof.
  intros Hne Hnd. rewrite assign_daily_return_eq by exact Hne.
  apply (has_duplicates_false_iff date_eqb date_eqb_spec) in Hnd. now rewrite Hnd.
Qed.

Lemma assign_daily_return_raises data :
  data <> [] -> ~ NoDup (return_dates data) ->
  assign_daily_return data = Raise ValueError.
Proof.
  intros Hne Hnd. rewrite assign_daily_return_eq by exact Hne.
  destruct (has_duplicates date_eqb (return_dates data)) eqn:E; [reflexivity |].
  apply (has_duplicates_false_iff date_eqb date_eqb_spec) in E. contradiction.
Qed.

Lemma NoDup_dates_dec (l : list Date) : {NoDup l} + {~ NoDup l}.
Proof.
  destruct (has_duplicates date_eqb l) eqn:E.
  - right. intros H. apply (has_duplicates_false_iff date_eqb date_eqb_spec) in H.
    congruence.
  - left. now apply (has_duplicates_false_iff date_eqb date_eqb_spec).
Qed.



(** A run that passes the input checks, finds price rows whose return
    dates are distinct and spans at least one whole day shows the report. *)
Lemma analyze_report P etf_symbol start_date end_date initial_investment :
  (start_date < end_date)%Z ->
  etf_symbol <> ""%string ->
  download P etf_symbol start_date end_date <> [] ->
  NoDup (return_dates (download P etf_symbol start_date end_date)) ->
  days (end_date - start_date) <> 0%Z ->
  let data := download P etf_symbol start_date end_date in
  exists c dy,
    cagr data start_date end_date = Ok c
    /\ dividend_yield data (ticker_dividends P etf_symbol) start_date end_date = Ok dy
    /\ analyze P etf_symbol start_date end_date initial_investment
       = Report {| shown_table := annual_table initial_investment data;
                   shown_cagr := c;
                   shown_volatility := annualized_volatility data;
                   shown_sharpe := annualized_sharpe_ratio data;
                   shown_beta := beta data (download P "^GSPC" start_date end_date);
                   shown_dividend_yield := dy;
                   shown_chart := investment_value initial_investment data |}.
Proof.
  intros Hlt Hsym Hdata Hnd Hdays data.
  pose proof (assign_daily_return_ok data Hdata Hnd) as Hassign.
  pose proof (cagr_ok data start_date end_date Hdata Hdays) as Hc.
  assert (Hdy : exists dy,
             dividend_yield data (ticker_dividends P etf_symbol) start_date end_date
             = Ok dy).
  { subst data. destruct (download P etf_symbol start_date end_date) as [| [d0 p0] rest];
      [congruence |].
    eexists. apply dividend_yield_eq. }
  destruct Hdy as [dy Hdy].
  match type of Hc with _ = Ok ?v => remember v as c eqn:Ec end. clear Ec.
  exists c, dy. split; [exact Hc |]. split; [exact Hdy |].
  unfold analyze.
  assert (Hge : (start_date >=? end_date)%Z = false)
    by (rewrite Z.geb_leb; apply Z.leb_gt; exact Hlt).
  rewrite Hge. apply String.eqb_neq in Hsym. rewrite Hsym.
  fold data.
  assert (Hm : metrics P etf_symbol start_date end_date initial_investment data
               = Ok {| shown_table := annual_table initial_investment data;
                       shown_cagr := c;
                       shown_volatility := annualized_volatility data;
                       shown_sharpe := annualized_sharpe_ratio data;
                       shown_beta := beta data (download P "^GSPC" start_date end_date);
                       shown_dividend_yield := dy;
                       shown_chart := investment_value initial_investment data |}).
  { unfold metrics. rewrite Hassign. cbn [bind]. rewrite Hc. cbn [bind].
    rewrite Hdy. reflexivity. }
  rewrite Hm. change (data <> []) in Hdata. clearbody data.
  destruct data; [congruence | reflexivity].
Qed.

(** When the two instants are less than one whole day apart (a start date
    on the night the clocks go forward and the next day as end date),
    [years] is 0 and [1/years] raises. *)
Lemma short_span_raises P etf_symbol start_date end_date initial_investment :
  (start_date < end_date)%Z ->
  etf_symbol <> ""%string ->
  download P etf_symbol start_date end_date <> [] ->
  NoDup (return_dates (download P etf_symbol start_date end_date)) ->
  days (end_date - start_date) = 0%Z ->
  analyze P etf_symbol start_date end_date initial_investment
  = Uncaught ZeroDivisionError.
Proof.
  intros Hlt Hsym Hdata Hnd Hdays. unfold analyze.
  assert (Hge : (start_date >=? end_date)%Z = false)
    by (rewrite Z.geb_leb; apply Z.leb_gt; exact Hlt).
  rewrite Hge. apply String.eqb_neq in Hsym. rewrite Hsym.
  destruct (download P etf_symbol start_date end_date) as [| row rest] eqn:E;
    [congruence |].
  cbn [empty]. unfold metrics, cagr.
  rewrite assign_daily_return_ok by (exact Hnd || discriminate). cbn [bind].
  rewrite total_return_ok by discriminate. cbn [bind].
  unfold cagr_of, years. rewrite Hdays.
  replace (0 / 365.25) with 0 by lra. rewrite py_truediv_zero. reflexivity.
Qed.

(** Two rows with a return on the same date: the assignment of the return
    column raises, whatever the dates of the request. *)
Lemma repeated_date_raises P etf_symbol start_date end_date initial_investment :
  (start_date < end_date)%Z ->
  etf_symbol <> ""%string ->
  download P etf_symbol start_date end_date <> [] ->
  ~ NoDup (return_dates (download P etf_symbol start_date end_date)) ->
  analyze P etf_symbol start_date end_date initial_investment
  = Uncaught ValueError.
Proof.
  intros Hlt Hsym Hdata Hnd. unfold analyze.
  assert (Hge : (start_date >=? end_date)%Z = false)
    by (rewrite Z.geb_leb; apply Z.leb_gt; exact Hlt).
  rewrite Hge. apply String.eqb_neq in Hsym. rewrite Hsym.
  destruct (download P etf_symbol start_date end_date) as [| row rest] eqn:E;
    [congruence |].
  cbn [empty]. unfold metrics.
  rewrite assign_daily_return_raises by (exact Hnd || discriminate). reflexivity.
Qed.

(** Conversely, a report is only shown after the input checks passed and
    price rows were found. *)
Lemma analyze_report_inv P etf_symbol start_date end_date initial_investment a :
  analyze P etf_symbol start_date end_date initial_investment = Report a ->
  (start_date < end_date)%Z
  /\ etf_symbol <> ""%string
  /\ download P etf_symbol start_date end_date <> []
  /\ metrics P etf_symbol start_date end_date initial_investment
       (download P etf_symbol start_date end_date) = Ok a.
Proof.
  unfold analyze. intros H.
  destruct (start_date >=? end_date)%Z eqn:Hge; [discriminate |].
  destruct (etf_symbol =? "")%string eqn:Hsym; [discriminate |].
  destruct (download P etf_symbol start_date end_date) as [| row rest] eqn:Hd;
    [discriminate |].
  cbn [empty] in H.
  destruct (metrics P etf_symbol start_date end_date initial_investment (row :: rest))
    as [a' | e] eqn:Hm; [| discriminate].
  injection H as ->.
  repeat split.
  - apply Z.leb_gt. rewrite <- Z.geb_leb. exact Hge.
  - apply String.eqb_neq. exact Hsym.
  - discriminate.
Qed.

Lemma analyze_report_distinct P etf_symbol start_date end_date initial_investment a :
  analyze P etf_symbol start_date end_date initial_investment = Report a ->
  NoDup (return_dates (download P etf_symbol start_date end_date)).
Proof.
  intros H. pose proof (analyze_report_inv _ _ _ _ _ _ H) as (Hlt & Hsym & Hdata & _).
  destruct (NoDup_dates_dec (return_dates (download P etf_symbol start_date end_date)))
    as [Hnd | Hnd]; [exact Hnd |].
  rewrite (repeated_date_raises P etf_symbol start_date end_date initial_investment
             Hlt Hsym Hdata Hnd) in H.
  discriminate.
Qed.

End Run.

(** Side condition of a run on a sample frame: distinct return dates. *)
Ltac solve_return_dates :=
  apply return_dates_NoDup, sorted_NoDup;
  cbn [ETF.download Examples.serve];
  try unfold Examples.three_days; try unfold Examples.flat;
  try unfold Examples.young_fund; try unfold Examples.one_day;
  solve_dates.

(* ===================================================================== *)
(** * Errors, dividend yield and CAGR of a run *)
(* ===================================================================== *)

Section RunClaims.

Import Pandas ETF Spec.

(** C8. If the download for the requested ticker has no rows, the page
    shows the error that names the ticker and nothing else: no report
    (table, metrics, chart) is produced and nothing is computed from the
    empty frame, so nothing can raise. *)
Theorem empty_frame_is_no_data_error
    (P : Provider) (etf_symbol : string) (start_date end_date : Timestamp)
    (initial_investment : Z) :
  (start_date < end_date)%Z ->
  etf_symbol <> ""%string ->
  download P etf_symbol start_date end_date = [] ->
  analyze P etf_symbol start_date end_date initial_investment
  = StError ("'" ++ etf_symbol
             ++ "' is not a valid ETF symbol or has no data for the selected date range.")
  /\ (forall a, analyze P etf_symbol start_date end_date initial_investment <> Report a)
  /\ (forall e, analyze P etf_symbol start_date end_date initial_investment <> Uncaught e).
Proof.
  intros Hlt Hsym Hdata.
  assert (H : analyze P etf_symbol start_date end_date initial_investment
              = StError (no_data_message etf_symbol)).
  { unfold analyze.
    assert (Hge : (start_date >=? end_date)%Z = false)
      by (rewrite Z.geb_leb; apply Z.leb_gt; exact Hlt).
    rewrite Hge. apply String.eqb_neq in Hsym. rewrite Hsym, Hdata. reflexivity. }
  rewrite H. split; [reflexivity |]. split; intros; discriminate.
Qed.

Lemma empty_frame_is_no_data_error_witness :
  (Examples.jan_03 < Examples.jan_07)%Z
  /\ "ZZZZ"%string <> ""%string
  /\ download (Examples.serve [] []) "ZZZZ" Examples.jan_03 Examples.jan_07 = []
  /\ analyze (Examples.serve [] []) "ZZZZ" Examples.jan_03 Examples.jan_07 1000
     = StError "'ZZZZ' is not a valid ETF symbol or has no data for the selected date range.".
Proof.
  split; [reflexivity |]. split; [discriminate |]. split; [reflexivity |].
  apply (empty_frame_is_no_data_error (Examples.serve [] []) "ZZZZ"
           Examples.jan_03 Examples.jan_07 1000);
    [reflexivity | discriminate | reflexivity].
Defined.

Lemma shown_dividend_yield_eq P etf_symbol start_date end_date initial_investment a :
  analyze P etf_symbol start_date end_date initial_investment = Report a ->
  dividend_yield (download P etf_symbol start_date end_date)
    (ticker_dividends P etf_symbol) start_date end_date
  = Ok (shown_dividend_yield a).
Proof.
  intros H. apply analyze_report_inv in H. destruct H as (_ & _ & _ & Hm).
  unfold metrics in Hm.
  destruct (assign_daily_return _) as [dr | e]; [| discriminate]. cbn [bind] in Hm.
  destruct (cagr _ _ _) as [c | e]; [| discriminate]. cbn [bind] in Hm.
  destruct (dividend_yield _ _ _ _) as [dy | e]; [| discriminate]. cbn [bind] in Hm.
  injection Hm as <-. reflexivity.
Qed.


(** C1, as amended. In every run that shows a report the dividend yield is
    absent exactly when the ticker has no dividend history at all;
    otherwise it is the sum of the amounts inside the inclusive window
    [start_date, end_date] divided by the first adjusted close.  When the
    history is not empty but no payment falls inside the window, that is the
    number 0 if the first adjusted close is not 0, and [NaN] (0/0) if it
    is 0. *)
Theorem dividend_yield_absent_iff_no_history
    (P : Provider) (etf_symbol : string) (start_date end_date : Timestamp)
    (initial_investment : Z) (a : Analysis) :
  analyze P etf_symbol start_date end_date initial_investment = Report a ->
  exists p0 : R,
    hd_error (prices (download P etf_symbol start_date end_date)) = Some p0
    /\ (shown_dividend_yield a = None <-> ticker_dividends P etf_symbol = [])
    /\ (ticker_dividends P etf_symbol <> [] ->
        shown_dividend_yield a
        = Some (fdiv (Fin (Rsum (map snd (in_window start_date end_date
                                            (ticker_dividends P etf_symbol)))))
                     (Fin p0)))
    /\ (ticker_dividends P etf_symbol <> [] ->
        in_window start_date end_date (ticker_dividends P etf_symbol) = [] ->
        (p0 <> 0 -> shown_dividend_yield a = Some (Fin 0))
        /\ (p0 = 0 -> shown_dividend_yield a = Some NaN)).
Proof.
  intros H. pose proof (shown_dividend_yield_eq _ _ _ _ _ _ H) as Hdy.
  apply analyze_report_inv in H. destruct H as (_ & _ & Hdata & _).
  destruct (download P etf_symbol start_date end_date) as [| [d0 p0] rest];
    [congruence |].
  rewrite dividend_yield_eq in Hdy. injection Hdy as Hdy.
  exists p0. split; [reflexivity |].
  destruct (ticker_dividends P etf_symbol) as [| dv dividends].
  - split; [| split]; try congruence. split; intros; [reflexivity | congruence].
  - split; [| split].
    + split; intros E; [congruence | discriminate].
    + intros _. now rewrite <- Hdy.
    + intros _ Hwin. rewrite <- Hdy, Hwin. cbn [map Rsum]. split.
      * intros Hp0. rewrite (Rzero_neq p0 Hp0). f_equal. apply Fin_eq. field.
        exact Hp0.
      * intros ->. rewrite !Rzero_eq by reflexivity. reflexivity.
Qed.

Lemma three_days_run (dividends : list (Timestamp * R)) :
  exists c dy,
    dividend_yield Examples.three_days dividends Examples.jan_03 Examples.jan_07 = Ok dy
    /\ analyze (Examples.serve Examples.three_days dividends) "SPY"
         Examples.jan_03 Examples.jan_07 1000
       = Report {| shown_table := annual_table 1000 Examples.three_days;
                   shown_cagr := c;
                   shown_volatility := annualized_volatility Examples.three_days;
                   shown_sharpe := annualized_sharpe_ratio Examples.three_days;
                   shown_beta := beta Examples.three_days Examples.three_days;
                   shown_dividend_yield := dy;
                   shown_chart := investment_value 1000 Examples.three_days |}.
Proof.
  destruct (analyze_report (Examples.serve Examples.three_days dividends) "SPY"
              Examples.jan_03 Examples.jan_07 1000)
    as (c & dy & _ & Hdy & Ha);
    [reflexivity | discriminate | discriminate | solve_return_dates
    | vm_compute; discriminate |].
  exists c, dy. split; [exact Hdy | exact Ha].
Qed.

Lemma dividend_yield_absent_iff_no_history_witness :
  exists a : Analysis,
    analyze (Examples.serve Examples.three_days [(Examples.dec_16, 1.5)]) "SPY"
      Examples.jan_03 Examples.jan_07 1000 = Report a
    /\ exists p0 : R,
         hd_error (prices Examples.three_days) = Some p0
         /\ (shown_dividend_yield a = None <-> [(Examples.dec_16, 1.5)] = [])
         /\ ([(Examples.dec_16, 1.5)] <> [] ->
             shown_dividend_yield a
             = Some (fdiv (Fin (Rsum (map snd (in_window Examples.jan_03 Examples.jan_07
                                                 [(Examples.dec_16, 1.5)]))))
                          (Fin p0)))
         /\ ([(Examples.dec_16, 1.5)] <> [] ->
             in_window Examples.jan_03 Examples.jan_07 [(Examples.dec_16, 1.5)] = [] ->
             (p0 <> 0 -> shown_dividend_yield a = Some (Fin 0))
             /\ (p0 = 0 -> shown_dividend_yield a = Some NaN)).
Proof.
  destruct (three_days_run [(Examples.dec_16, 1.5)]) as (c & dy & _ & Ha).
  eexists. split; [exact Ha |].
  exact (dividend_yield_absent_iff_no_history
           (Examples.serve Examples.three_days [(Examples.dec_16, 1.5)]) "SPY"
           Examples.jan_03 Examples.jan_07 1000 _ Ha).
Defined.

(** C1, as stated, fails: a ticker that paid a dividend on 2022-12-16 and
    nothing inside the window 2023-01-03 .. 2023-01-07 has no dividend event
    in the window, yet the run shows a dividend yield, and it is the
    number 0. *)
Lemma dividend_outside_window_shows_zero :
  in_window Examples.jan_03 Examples.jan_07 [(Examples.dec_16, 1.5)] = []
  /\ exists a : Analysis,
       analyze (Examples.serve Examples.three_days [(Examples.dec_16, 1.5)]) "SPY"
         Examples.jan_03 Examples.jan_07 1000 = Report a
       /\ shown_dividend_yield a = Some (Fin 0)
       /\ shown_dividend_yield a <> None.
Proof.
  assert (Hwin : in_window Examples.jan_03 Examples.jan_07 [(Examples.dec_16, 1.5)] = [])
    by reflexivity.
  split; [exact Hwin |].
  destruct (three_days_run [(Examples.dec_16, 1.5)]) as (c & dy & Hdy & Ha).
  eexists. split; [exact Ha |]. cbn [shown_dividend_yield].
  unfold Examples.three_days in Hdy. rewrite dividend_yield_eq, Hwin in Hdy.
  cbn [map Rsum] in Hdy. rewrite fdiv_fin in Hdy by lra.
  assert (E : dy = Some (Fin 0)).
  { injection Hdy as <-. f_equal. apply Fin_eq. lra. }
  rewrite E. split; [reflexivity | discriminate].
Qed.



End RunClaims.


(* ===================================================================== *)
(** * Mean, variance and standard deviation of a column of returns *)
(* ===================================================================== *)

Section Statistics.

Import Pandas ETF Spec.

Lemma fdiv_nan_r (x : float64) : fdiv x NaN = NaN.
Proof. destruct x; reflexivity. Qed.

Lemma fmul_nan_l (x : float64) : fmul NaN x = NaN.
Proof. reflexivity. Qed.

Lemma count_skip_nan (vs : list float64) : count (NaN :: vs) = count vs.
Proof. reflexivity. Qed.

Lemma nansum_skip_nan (rs : list R) :
  nansum (NaN :: map Fin rs) = Fin (Rsum rs).
Proof.
  unfold nansum. cbn [zero_na map isnan fsum].
  change (map (fun v => if isnan v then Fin 0 else v) (map Fin rs))
    with (zero_na (map Fin rs)).
  rewrite zero_na_Fin, fsum_Fin. cbn [fadd]. apply Fin_eq. lra.
Qed.

Lemma fsum_map_Fin {A : Type} (g : A -> R) (l : list A) :
  fsum (map (fun a => Fin (g a)) l) = Fin (Rsum (map g l)).
Proof. rewrite <- (map_map g Fin). apply fsum_Fin. Qed.

(** With at most [ddof] values present the variance is missing. *)
Lemma nanvar_few (ddof : nat) (vs : list float64) :
  (count vs <= ddof)%nat -> nanvar ddof vs = NaN.
Proof.
  intros H. unfold nanvar. apply Nat.leb_le in H. rewrite H. apply fdiv_nan_r.
Qed.

Lemma nanmean_returns (rs : list R) :
  rs <> [] -> nanmean (NaN :: map Fin rs) = Fin (Rmean rs).
Proof.
  intros H. unfold nanmean. rewrite count_skip_nan, count_Fin.
  pose proof (INR_length_pos rs H) as Hpos.
  assert (Hlt : (0 <? length rs)%nat = true)
    by (apply Nat.ltb_lt; destruct rs; [congruence | simpl; lia]).
  rewrite Hlt, nansum_skip_nan. rewrite fdiv_fin by lra. reflexivity.
Qed.

(** With at least two returns the variance computed by pandas is the
    sample variance. *)
Lemma nanvar_returns (rs : list R) :
  (2 <= length rs)%nat -> nanvar 1 (NaN :: map Fin rs) = Fin (sample_variance rs).
Proof.
  intros Hlen. unfold nanvar. rewrite count_skip_nan, count_Fin.
  assert (Hleb : (length rs <=? 1)%nat = false) by (apply Nat.leb_gt; lia).
  rewrite Hleb, nansum_skip_nan.
  assert (Hn : 2 <= INR (length rs)) by (apply (le_INR 2); exact Hlen).
  rewrite fdiv_fin by lra.
  change (Rsum rs / INR (length rs)) with (Rmean rs).
  cbn [map isnan fsum]. rewrite map_map. cbn [isnan fsub fmul].
  rewrite (fsum_map_Fin (fun r => (Rmean rs - r) * (Rmean rs - r))).
  cbn [fadd]. change (INR 1) with 1. rewrite fdiv_fin by lra.
  apply Fin_eq. unfold sample_variance. f_equal. rewrite Rplus_0_l.
  apply Rsum_map_ext. intros r _. ring.
Qed.

Lemma sample_variance_nonneg (rs : list R) :
  (2 <= length rs)%nat -> 0 <= sample_variance rs.
Proof.
  intros Hlen. unfold sample_variance.
  assert (Hn : 2 <= INR (length rs)) by (apply (le_INR 2); exact Hlen).
  apply Rmult_le_pos.
  - apply (Rsum_squares_nonneg (fun r => r - Rmean rs)).
  - left. apply Rinv_0_lt_compat. lra.
Qed.

Lemma std_returns (rs : list R) :
  (2 <= length rs)%nat ->
  fsqrt (nanvar 1 (NaN :: map Fin rs)) = Fin (sample_std rs).
Proof.
  intros Hlen. rewrite nanvar_returns by exact Hlen.
  apply fsqrt_fin. now apply sample_variance_nonneg.
Qed.

End Statistics.

Section VolatilityClaims.

Import Pandas ETF Spec.

(** C4, as amended. For a price frame with strictly increasing dates and
    non-zero prices: with at least three rows (two daily returns) the
    annualized volatility is the sample standard deviation (divisor [n - 1])
    of the daily returns times [sqrt 252], and it is [>= 0]; with one or two
    rows it is [NaN], which is not [>= 0]. *)
Theorem volatility_of_returns (data : PriceFrame) :
  increasing_dates data ->
  nonzero_prices data ->
  ((3 <= length data)%nat ->
   annualized_volatility data = Fin (sample_std (returns data) * sqrt 252)
   /\ fle (Fin 0) (annualized_volatility data))
  /\ ((length data <= 2)%nat ->
      annualized_volatility data = NaN
      /\ ~ fle (Fin 0) (annualized_volatility data)).
Proof.
  intros Hinc Hnz. apply sorted_NoDup in Hinc.
  unfold annualized_volatility, daily_volatility, std. split.
  - intros Hlen.
    assert (Hne : data <> []) by (destruct data; [simpl in Hlen; lia | discriminate]).
    pose proof (length_returns data Hne) as Hr.
    rewrite values_daily_return by assumption.
    rewrite std_returns by lia. rewrite sqrt_252_eq. cbn [fmul fle].
    split; [reflexivity |].
    apply Rmult_le_pos; [apply sqrt_pos | apply sqrt_pos].
  - intros Hlen.
    assert (E : nanvar 1 (values (daily_return data)) = NaN).
    { apply nanvar_few. destruct data as [| row rest]; [cbn; lia |].
      pose proof (length_returns (row :: rest)) as Hr.
      rewrite values_daily_return by (assumption || discriminate).
      rewrite count_skip_nan, count_Fin.
      specialize (Hr ltac:(discriminate)). lia. }
    rewrite E. cbn [fsqrt fmul fle]. split; [reflexivity | tauto].
Qed.

Lemma volatility_of_returns_witness :
  increasing_dates Examples.three_days
  /\ nonzero_prices Examples.three_days
  /\ ((3 <= length Examples.three_days)%nat ->
      annualized_volatility Examples.three_days
      = Fin (sample_std (returns Examples.three_days) * sqrt 252)
      /\ fle (Fin 0) (annualized_volatility Examples.three_days))
  /\ ((length Examples.three_days <= 2)%nat ->
      annualized_volatility Examples.three_days = NaN
      /\ ~ fle (Fin 0) (annualized_volatility Examples.three_days)).
Proof.
  assert (Hd : increasing_dates Examples.three_days)
    by (unfold Examples.three_days; solve_dates).
  assert (Hp : nonzero_prices Examples.three_days)
    by (unfold Examples.three_days; solve_prices).
  split; [exact Hd |]. split; [exact Hp |].
  exact (volatility_of_returns Examples.three_days Hd Hp).
Defined.

(** C4, as stated, fails on a frame with a single row: its only daily
    return is missing, the standard deviation of nothing is [NaN], and
    [NaN >= 0] is false. *)
Lemma single_row_volatility_is_nan :
  Examples.one_day <> []
  /\ annualized_volatility Examples.one_day = NaN
  /\ ~ fle (Fin 0) (annualized_volatility Examples.one_day).
Proof.
  split; [discriminate |].
  assert (E : annualized_volatility Examples.one_day = NaN).
  { unfold annualized_volatility, daily_volatility, std.
    rewrite nanvar_few; [reflexivity |].
    unfold Examples.one_day.
    rewrite values_daily_return;
      [cbn; lia | discriminate | repeat constructor; intros [] | solve_prices]. }
  rewrite E. split; [reflexivity |]. cbn [fle]. tauto.
Qed.

End VolatilityClaims.

(* ===================================================================== *)
(** * Subtracting a constant from a column *)
(* ===================================================================== *)

Section Shift.

Import Pandas ETF Spec.

Variable c : R.

Local Abbreviation shift_c := (fun v : float64 => fsub v (Fin c)).

Lemma isnan_shift v : isnan (fsub v (Fin c)) = isnan v.
Proof. destruct v; reflexivity. Qed.

Lemma count_shift vs : count (map shift_c vs) = count vs.
Proof.
  unfold count. induction vs as [| v vs IH]; [reflexivity |].
  destruct v; simpl; rewrite ?IH; reflexivity.
Qed.

Lemma nansum_cons v vs :
  nansum (v :: vs) = fadd (if isnan v then Fin 0 else v) (nansum vs).
Proof. reflexivity. Qed.

(** The sum moves by [c] for every value that is present. *)
Lemma nansum_shift vs :
  nansum (map shift_c vs) = fsub (nansum vs) (Fin (INR (count vs) * c)).
Proof.
  induction vs as [| v vs IH].
  - unfold nansum, count. cbn. apply Fin_eq. lra.
  - cbn [map]. rewrite !nansum_cons, IH, isnan_shift.
    destruct v as [| s | a].
    + rewrite count_skip_nan. cbn [isnan].
      destruct (nansum vs); cbn [fadd fsub]; try reflexivity.
      apply Fin_eq. lra.
    + cbn [isnan fsub].
      destruct (nansum vs) as [| t | b]; cbn [fadd fsub]; try reflexivity.
      destruct (Bool.eqb s t); reflexivity.
    + assert (Hc : count (Fin a :: vs) = S (count vs)) by reflexivity.
      rewrite Hc, S_INR. cbn [isnan fsub].
      destruct (nansum vs) as [| t | b]; cbn [fadd fsub]; try reflexivity.
      apply Fin_eq. lra.
Qed.

Lemma fdiv_shift (x : float64) (n : R) :
  n <> 0 ->
  fdiv (fsub x (Fin (n * c))) (Fin n) = fsub (fdiv x (Fin n)) (Fin c).
Proof.
  intros Hn. destruct x as [| s | a]; cbn [fsub]; try reflexivity.
  rewrite !fdiv_fin by exact Hn. cbn [fsub]. apply Fin_eq. field. exact Hn.
Qed.

Lemma fsub_shift (x v : float64) :
  fsub (fsub x (Fin c)) (fsub v (Fin c)) = fsub x v.
Proof.
  destruct x as [| s | a], v as [| t | b]; cbn [fsub]; try reflexivity.
  apply Fin_eq. lra.
Qed.

(** The variance does not see the constant. *)
Lemma nanvar_shift (ddof : nat) vs :
  nanvar ddof (map shift_c vs) = nanvar ddof vs.
Proof.
  unfold nanvar. rewrite count_shift, nansum_shift, map_map.
  destruct (count vs <=? ddof)%nat eqn:Hle.
  - rewrite !fdiv_nan_r. reflexivity.
  - apply Nat.leb_gt in Hle.
    assert (Hn : INR (count vs) <> 0).
    { apply Rgt_not_eq. apply lt_0_INR. lia. }
    rewrite (fdiv_shift _ _ Hn). f_equal. f_equal.
    apply map_ext. intros v. rewrite isnan_shift, fsub_shift. reflexivity.
Qed.

Lemma std_sub {I : Type} (s : Series (I := I)) :
  std (sub (Fin c) s) = std s.
Proof.
  unfold std. rewrite values_sub. now rewrite nanvar_shift.
Qed.

End Shift.

Section SharpeClaims.

Import Pandas ETF Spec.

(** C9, as amended. In exact arithmetic, subtracting a constant from a
    series leaves its sample standard deviation unchanged, so the daily
    Sharpe ratio of the script, which divides the mean excess return by the
    standard deviation of the raw daily returns, equals the formulation that
    divides by the standard deviation of the excess returns; this holds for
    every price frame, in particular for those with at least two daily
    returns. *)
Theorem sharpe_formulations_agree :
  (forall (c : R) (s : Series (I := Date)), std (sub (Fin c) s) = std s)
  /\ (forall data : PriceFrame,
        daily_sharpe_ratio data = sharpe_on_excess_volatility data).
Proof.
  split.
  - intros c s. apply std_sub.
  - intros data. unfold daily_sharpe_ratio, sharpe_on_excess_volatility,
      daily_volatility, daily_excess_return.
    now rewrite std_sub.
Qed.

End SharpeClaims.

Section SharpeRounding.

Import Stdlib.Floats.Floats.

(** C9, as stated, fails in the binary64 run.  The prices 125, 150, 180,
    216 give three times the same rounded return: the standard deviation of
    the returns is exactly 0 and the Sharpe ratio of the script is
    infinite.  The excess returns are again three equal numbers, but their
    rounded mean is not that number: their standard deviation is not 0 and
    the other formulation gives a finite ratio, about 5.9e15. *)
#[warnings="-inexact-float"]
Lemma rounded_sharpe_formulations_differ :
  Binary64.daily_return [125; 150; 180; 216]%float
  = [nan; 0.19999999999999996; 0.19999999999999996; 0.19999999999999996]%float
  /\ Binary64.daily_volatility [125; 150; 180; 216]%float = 0%float
  /\ Binary64.daily_sharpe_ratio [125; 150; 180; 216]%float = infinity
  /\ Binary64.sharpe_on_excess_volatility [125; 150; 180; 216]%float
     = 5881143202725823%float.
Proof. repeat split; vm_compute; reflexivity. Qed.

End SharpeRounding.

(* ===================================================================== *)
(** * Degenerate arithmetic *)
(* ===================================================================== *)

Section Degenerate.

Import Pandas ETF Spec.

Lemma fdiv_by_zero (x : float64) :
  fdiv x (Fin 0) = NaN \/ exists sign, fdiv x (Fin 0) = Inf sign.
Proof.
  destruct x as [| s | a]; cbn [fdiv].
  - now left.
  - right. eexists. reflexivity.
  - rewrite (Rzero_eq 0 eq_refl). destruct (Rzero a); [now left |].
    right. eexists. reflexivity.
Qed.

Lemma sqrt_252_pos : 0 < sqrt 252.
Proof. apply sqrt_lt_R0. lra. Qed.

Lemma fmul_inf_pos (sign : bool) (q : R) : 0 < q -> fmul (Inf sign) (Fin q) = Inf sign.
Proof.
  intros H. cbn [fmul]. rewrite (Rzero_neq q), (Rneg_ge q) by lra.
  now rewrite xorb_false_r.
Qed.

(** Scaling by [252 ** 0.5] keeps [NaN] and the infinities. *)
Lemma annualize_not_finite (x : float64) :
  x = NaN \/ (exists sign, x = Inf sign) ->
  fmul x sqrt_252 = NaN \/ exists sign, fmul x sqrt_252 = Inf sign.
Proof.
  rewrite sqrt_252_eq. intros [-> | [sign ->]].
  - now left.
  - right. exists sign. apply fmul_inf_pos, sqrt_252_pos.
Qed.

Lemma days_pos (start_date end_date : Timestamp) :
  (start_date < end_date)%Z ->
  days (end_date - start_date) <> 0%Z ->
  (0 < days (end_date - start_date))%Z.
Proof.
  intros Hlt Hne. unfold days in *.
  assert (0 <= (end_date - start_date) / day_ns)%Z
    by (apply Z.div_pos; [lia | reflexivity]).
  lia.
Qed.

Lemma exponent_pos (start_date end_date : Timestamp) :
  (start_date < end_date)%Z ->
  days (end_date - start_date) <> 0%Z ->
  0 < 1 / years start_date end_date.
Proof.
  intros Hlt Hne. pose proof (days_pos _ _ Hlt Hne) as Hd.
  apply (IZR_lt 0) in Hd. unfold years.
  apply Rdiv_lt_0_compat; [lra |]. apply Rdiv_lt_0_compat; lra.
Qed.

(** A missing or infinite total return gives a CAGR that is not finite. *)
Lemma cagr_not_finite (tr : float64) (y : R) :
  0 < y ->
  tr = NaN \/ tr = Inf false ->
  fsub (fpow (fadd (Fin 1) tr) y) (Fin 1) = tr.
Proof.
  intros Hy [-> | ->]; cbn [fadd]; unfold fpow;
    rewrite (Rzero_neq y) by lra.
  - reflexivity.
  - rewrite (Rneg_ge y) by lra. reflexivity.
Qed.

Lemma values_daily_excess_return data :
  data <> [] ->
  NoDup (map fst data) ->
  nonzero_prices data ->
  values (daily_excess_return data)
  = NaN :: map Fin (map (fun r => r - risk_free_rate / 252) (returns data)).
Proof.
  intros Hne Hnd Hnz. unfold daily_excess_return.
  rewrite values_sub, values_daily_return by assumption.
  cbn [map fsub]. now rewrite !map_map.
Qed.

End Degenerate.

Section DegenerateClaims.

Import Pandas ETF Spec.

Lemma flat_dates : NoDup (map fst Examples.flat).
Proof. apply sorted_NoDup. unfold Examples.flat. solve_dates. Qed.

(** C2, as amended. The metrics have no domain error.  A run that passes
    the input checks, finds price rows on distinct dates and spans at least
    one whole day always shows the report.  The Sharpe ratio shown is
    [mean(excess) / daily_volatility * 252 ** 0.5] computed with numpy
    division: when the daily volatility is exactly 0 it is [NaN] or an
    infinity.  The CAGR shown is the value of its formula whether finite or
    not: with a missing or infinite total return it is [NaN] or infinite,
    and it is shown. *)
Theorem degenerate_math_is_shown
    (P : Provider) (etf_symbol : string) (start_date end_date : Timestamp)
    (initial_investment : Z) :
  (start_date < end_date)%Z ->
  etf_symbol <> ""%string ->
  download P etf_symbol start_date end_date <> [] ->
  NoDup (map fst (download P etf_symbol start_date end_date)) ->
  days (end_date - start_date) <> 0%Z ->
  exists a : Analysis,
    analyze P etf_symbol start_date end_date initial_investment = Report a
    /\ shown_sharpe a
       = fmul (fdiv (mean (daily_excess_return (download P etf_symbol start_date end_date)))
                    (daily_volatility (download P etf_symbol start_date end_date)))
              sqrt_252
    /\ (daily_volatility (download P etf_symbol start_date end_date) = Fin 0 ->
        shown_sharpe a = NaN \/ exists sign, shown_sharpe a = Inf sign)
    /\ exists tr : float64,
         total_return (download P etf_symbol start_date end_date) = Ok tr
         /\ shown_cagr a
            = fsub (fpow (fadd (Fin 1) tr) (1 / years start_date end_date)) (Fin 1)
         /\ (tr = NaN \/ tr = Inf false -> shown_cagr a = tr).
Proof.
  intros Hlt Hsym Hdata Hdates Hdays.
  destruct (analyze_report P etf_symbol start_date end_date initial_investment
              Hlt Hsym Hdata (return_dates_NoDup _ Hdates) Hdays)
    as (c & dy & Hc & _ & Ha).
  eexists. split; [exact Ha |]. cbn [shown_sharpe shown_cagr].
  split; [reflexivity |]. split.
  - intros Hvol. unfold annualized_sharpe_ratio, daily_sharpe_ratio.
    rewrite Hvol. apply annualize_not_finite, fdiv_by_zero.
  - rewrite cagr_ok in Hc by assumption. injection Hc as <-.
    eexists. split; [apply total_return_ok; exact Hdata |].
    split; [reflexivity |].
    apply cagr_not_finite, exponent_pos; assumption.
Qed.

Lemma degenerate_math_is_shown_witness :
  (Examples.jan_03 < Examples.jan_07)%Z
  /\ "SPY"%string <> ""%string
  /\ download (Examples.serve Examples.flat []) "SPY" Examples.jan_03 Examples.jan_07 <> []
  /\ NoDup (map fst (download (Examples.serve Examples.flat []) "SPY"
                       Examples.jan_03 Examples.jan_07))
  /\ days (Examples.jan_07 - Examples.jan_03) <> 0%Z
  /\ exists a : Analysis,
       analyze (Examples.serve Examples.flat []) "SPY"
         Examples.jan_03 Examples.jan_07 1000 = Report a
       /\ shown_sharpe a
          = fmul (fdiv (mean (daily_excess_return Examples.flat))
                       (daily_volatility Examples.flat))
                 sqrt_252
       /\ (daily_volatility Examples.flat = Fin 0 ->
           shown_sharpe a = NaN \/ exists sign, shown_sharpe a = Inf sign)
       /\ exists tr : float64,
            total_return Examples.flat = Ok tr
            /\ shown_cagr a
               = fsub (fpow (fadd (Fin 1) tr)
                            (1 / years Examples.jan_03 Examples.jan_07))
                      (Fin 1)
            /\ (tr = NaN \/ tr = Inf false -> shown_cagr a = tr).
Proof.
  split; [reflexivity |]. split; [discriminate |]. split; [discriminate |].
  split; [exact flat_dates |].
  split; [vm_compute; discriminate |].
  apply (degenerate_math_is_shown (Examples.serve Examples.flat []) "SPY"
           Examples.jan_03 Examples.jan_07 1000);
    [reflexivity | discriminate | discriminate | exact flat_dates
    | vm_compute; discriminate].
Defined.

Lemma flat_volatility : daily_volatility Examples.flat = Fin 0.
Proof.
  unfold daily_volatility, std.
  rewrite values_daily_return;
    [| discriminate | exact flat_dates | unfold Examples.flat; solve_prices].
  rewrite std_returns by (cbn; lia).
  apply Fin_eq. unfold sample_std.
  replace (sample_variance (returns Examples.flat)) with 0; [apply sqrt_0 |].
  unfold sample_variance, Rmean, returns, prices, Examples.flat.
  cbn [map snd returns_from Rsum length INR]. field.
Qed.

Lemma flat_mean_excess :
  exists m : R, mean (daily_excess_return Examples.flat) = Fin m /\ m < 0.
Proof.
  unfold mean.
  rewrite values_daily_excess_return;
    [| discriminate | exact flat_dates | unfold Examples.flat; solve_prices].
  rewrite nanmean_returns by discriminate.
  eexists. split; [reflexivity |].
  unfold Rmean, returns, prices, Examples.flat, risk_free_rate.
  cbn [map snd returns_from Rsum length INR]. lra.
Qed.

(** C2, as stated, fails: with three days at the same price the daily
    volatility is exactly 0, nothing fails, and the report shows a Sharpe
    ratio of minus infinity. *)
Lemma flat_prices_show_infinite_sharpe :
  daily_volatility Examples.flat = Fin 0
  /\ exists a : Analysis,
       analyze (Examples.serve Examples.flat []) "SPY"
         Examples.jan_03 Examples.jan_07 1000 = Report a
       /\ shown_sharpe a = Inf true.
Proof.
  split; [exact flat_volatility |].
  destruct (analyze_report (Examples.serve Examples.flat []) "SPY"
              Examples.jan_03 Examples.jan_07 1000)
    as (c & dy & _ & _ & Ha);
    [reflexivity | discriminate | discriminate
    | exact (return_dates_NoDup _ flat_dates) | vm_compute; discriminate |].
  eexists. split; [exact Ha |]. cbn [shown_sharpe download Examples.serve].
  unfold annualized_sharpe_ratio, daily_sharpe_ratio.
  destruct flat_mean_excess as (m & -> & Hm).
  rewrite flat_volatility, fdiv_neg_zero by exact Hm.
  rewrite sqrt_252_eq. apply fmul_inf_pos, sqrt_252_pos.
Qed.

End DegenerateClaims.

(* ===================================================================== *)
(** * Grouping by year *)
(* ===================================================================== *)

Section GroupBy.

Import Pandas ETF Spec.

Lemma insert_key_In (k x : Z) (ks : list Z) :
  In x (insert_key k ks) <-> x = k \/ In x ks.
Proof.
  induction ks as [| h t IH]; simpl.
  - intuition.
  - destruct (k <? h)%Z; [simpl; intuition |].
    destruct (k =? h)%Z eqn:E.
    + apply Z.eqb_eq in E. subst. simpl. intuition.
    + simpl. rewrite IH. intuition.
Qed.

Lemma group_keys_In (x : Z) (ks : list Z) : In x (group_keys ks) <-> In x ks.
Proof.
  unfold group_keys. induction ks as [| k ks IH]; simpl; [reflexivity |].
  rewrite insert_key_In, IH. intuition.
Qed.

Lemma insert_key_HdRel (a k : Z) (ks : list Z) :
  (a < k)%Z -> HdRel Z.lt a ks -> HdRel Z.lt a (insert_key k ks).
Proof.
  intros Hak H. destruct ks as [| h t]; simpl; [now constructor |].
  inversion H; subst.
  destruct (k <? h)%Z; [now constructor |].
  destruct (k =? h)%Z; now constructor.
Qed.

Lemma insert_key_Sorted (k : Z) (ks : list Z) :
  Sorted Z.lt ks -> Sorted Z.lt (insert_key k ks).
Proof.
  induction 1 as [| h t Hs IH Hhd]; simpl; [repeat constructor |].
  destruct (k <? h)%Z eqn:Hlt.
  - apply Z.ltb_lt in Hlt. repeat constructor; assumption.
  - destruct (k =? h)%Z eqn:Heq; [now constructor |].
    apply Z.ltb_ge in Hlt. apply Z.eqb_neq in Heq.
    constructor; [exact IH |]. apply insert_key_HdRel; [lia | exact Hhd].
Qed.

Lemma group_keys_ascending (ks : list Z) : StronglySorted Z.lt (group_keys ks).
Proof.
  apply Sorted_StronglySorted; [exact Z.lt_trans |].
  unfold group_keys. induction ks as [| k ks IH]; simpl; [constructor |].
  now apply insert_key_Sorted.
Qed.

Lemma ascending_NoDup (ks : list Z) : StronglySorted Z.lt ks -> NoDup ks.
Proof.
  induction 1 as [| k ks Hs IH Hall]; constructor; [| exact IH].
  intros Hin. rewrite Forall_forall in Hall. specialize (Hall k Hin). lia.
Qed.

Lemma groupby_last_keys (keys : list Z) (col : list float64) :
  map fst (groupby_last keys col) = group_keys keys.
Proof. unfold groupby_last. rewrite map_map. cbn [fst]. apply map_id. Qed.

Lemma groupby_last_In (keys : list Z) (col : list float64) (y : Z) (v : float64) :
  In (y, v) (groupby_last keys col) -> v = last_valid (group y keys col).
Proof.
  unfold groupby_last. rewrite in_map_iff. intros (k & E & _).
  cbn beta in E. injection E as -> <-. reflexivity.
Qed.

(** The group of year [y], read off the rows of the column. *)
Lemma group_rows (col : Series (I := Date)) (y : Z) :
  group y (map year (index col)) (values col)
  = values (List.filter (fun dv => (year (fst dv) =? y)%Z) col).
Proof.
  unfold group, index, values. induction col as [| [d v] col IH]; [reflexivity |].
  cbn [map combine filter fst snd]. destruct (year d =? y)%Z; cbn [map snd]; now rewrite IH.
Qed.

Lemma filter_sorted (f : Date * float64 -> bool) (col : Series (I := Date)) :
  StronglySorted date_lt (index col) ->
  StronglySorted date_lt (index (List.filter f col)).
Proof.
  unfold index. induction col as [| [d v] col IH]; intros H; [constructor |].
  cbn [map fst] in H. inversion H as [| ? ? Hs Hall]; subst.
  cbn [filter]. destruct (f (d, v)); [| now apply IH].
  cbn [map fst]. constructor; [now apply IH |].
  rewrite Forall_forall in *. intros d' Hd'. apply Hall.
  rewrite in_map_iff in *. destruct Hd' as (row & E & Hin).
  apply filter_In in Hin. exists row. tauto.
Qed.

(** [last_valid] picks the value of the latest row that has one. *)
Lemma last_valid_spec (rows : Series (I := Date)) :
  StronglySorted date_lt (index rows) ->
  (exists d, In (d, last_valid (values rows)) rows
             /\ last_valid (values rows) <> NaN
             /\ forall d' v', In (d', v') rows -> v' <> NaN -> date_le d' d)
  \/ (last_valid (values rows) = NaN
      /\ forall d' v', In (d', v') rows -> v' = NaN).
Proof.
  induction rows as [| [d0 v0] rows IH]; intros Hs.
  - right. split; [reflexivity | intros ? ? []].
  - cbn [index map fst] in Hs. inversion Hs as [| ? ? Hs' Hall]; subst.
    cbn [values map snd last_valid]. fold (values rows).
    destruct (IH Hs') as [(d & Hin & Hv & Hmax) | (Hnan & Hall')].
    + left. exists d.
      assert (E : match last_valid (values rows) with
                  | NaN => v0 | w => w end = last_valid (values rows))
        by (destruct (last_valid (values rows)); [congruence | reflexivity | reflexivity]).
      rewrite E. split; [now right |]. split; [exact Hv |].
      intros d' v' [[= <- <-] | Hin'] Hv'.
      * right. rewrite Forall_forall in Hall. apply Hall.
        apply (in_map fst) in Hin. exact Hin.
      * now apply (Hmax d' v').
    + rewrite Hnan. destruct v0 as [| s | a].
      * right. split; [reflexivity |].
        intros d' v' [[= <- <-] | Hin']; [reflexivity | now apply (Hall' d' v')].
      * left. exists d0. split; [now left |]. split; [discriminate |].
        intros d' v' [[= <- <-] | Hin'] Hv'; [now left |].
        exfalso. apply Hv'. now apply (Hall' d' v').
      * left. exists d0. split; [now left |]. split; [discriminate |].
        intros d' v' [[= <- <-] | Hin'] Hv'; [now left |].
        exfalso. apply Hv'. now apply (Hall' d' v').
Qed.

Lemma groupby_year_end (col : Series (I := Date)) (y : Z) :
  StronglySorted date_lt (index col) ->
  year_end_value col y (last_valid (group y (map year (index col)) (values col))).
Proof.
  intros Hs. rewrite group_rows.
  set (rows := List.filter (fun dv => (year (fst dv) =? y)%Z) col).
  assert (Hrows : forall d v, In (d, v) rows <-> In (d, v) col /\ year d = y).
  { intros d v. unfold rows. rewrite filter_In. cbn [fst]. now rewrite Z.eqb_eq. }
  destruct (last_valid_spec rows (filter_sorted _ col Hs))
    as [(d & Hin & Hv & Hmax) | (Hnan & Hall)].
  - left. exists d. apply Hrows in Hin. destruct Hin as [Hin Hy].
    repeat split; try assumption.
    intros d' v' Hin' Hy' Hv'. apply (Hmax d' v'); [| exact Hv'].
    apply Hrows. now split.
  - right. split; [exact Hnan |].
    intros d' v' Hin' Hy'. apply (Hall d' v'). apply Hrows. now split.
Qed.

Lemma date_le_antisym (a b : Date) : date_le a b -> date_le b a -> a = b.
Proof.
  unfold date_le, date_lt. intros [-> | H1] [E | H2]; try reflexivity; try (now symmetry).
  exfalso. lia.
Qed.

Lemma NoDup_index_functional {I : Type} (col : Series (I := I)) (i : I) (v w : float64) :
  NoDup (index col) -> In (i, v) col -> In (i, w) col -> v = w.
Proof.
  unfold index. induction col as [| [j u] col IH]; intros Hnd Hv Hw; [contradiction |].
  cbn [map fst] in Hnd. inversion Hnd as [| ? ? Hnotin Hnd']; subst.
  destruct Hv as [Ev | Hv], Hw as [Ew | Hw].
  - congruence.
  - exfalso. apply Hnotin. apply (in_map fst) in Hw.
    injection Ev as -> _. exact Hw.
  - exfalso. apply Hnotin. apply (in_map fst) in Hv.
    injection Ew as -> _. exact Hv.
  - now apply IH.
Qed.

End GroupBy.

Section AnnualTableClaims.

Import Pandas ETF Spec.

Lemma annual_table_eq init data :
  annual_table init data
  = groupby_last (map year (index (investment_value init data)))
                 (values (investment_value init data)).
Proof.
  unfold annual_table. now rewrite index_adj_close, index_investment_value.
Qed.

Lemma investment_value_present init data :
  nonzero_prices data ->
  forall d w, In (d, w) (investment_value init data) -> w <> NaN.
Proof.
  intros Hnz d w Hin. destruct data as [| [d0 p0] rest].
  - assert (E : investment_value init [] = []) by reflexivity.
    rewrite E in Hin. contradiction.
  - unfold nonzero_prices in Hnz. cbn [prices map snd] in Hnz.
    inversion Hnz; subst.
    rewrite investment_value_rows in Hin by assumption.
    apply in_map_iff in Hin. destruct Hin as (row & [= _ <-] & _). discriminate.
Qed.

(** C6, as amended. For every price frame with strictly increasing dates
    the annual table has exactly one row for each calendar year that occurs
    in the frame, its rows are ordered by year strictly ascending, and the
    value of a row is the Investment Value on the last date of that year
    that has one (missing when the year has none); that date is the year's
    last trading date whenever the Investment Value there is not missing,
    and with non-zero prices no Investment Value is missing. *)
Theorem annual_table_year_ends (data : PriceFrame) (initial_investment : Z) :
  increasing_dates data ->
  (forall y, In y (map fst (annual_table initial_investment data))
             <-> In y (map year (map fst data)))
  /\ NoDup (map fst (annual_table initial_investment data))
  /\ StronglySorted Z.lt (map fst (annual_table initial_investment data))
  /\ (forall y v,
        In (y, v) (annual_table initial_investment data) ->
        year_end_value (investment_value initial_investment data) y v)
  /\ (forall y v d w,
        In (y, v) (annual_table initial_investment data) ->
        last_trading_date data y d ->
        In (d, w) (investment_value initial_investment data) ->
        w <> NaN ->
        v = w)
  /\ (nonzero_prices data ->
      forall d w, In (d, w) (investment_value initial_investment data) -> w <> NaN).
Proof.
  intros Hinc. unfold increasing_dates in Hinc.
  pose proof (index_investment_value initial_investment data) as Hidx.
  assert (Hs : StronglySorted date_lt (index (investment_value initial_investment data)))
    by (rewrite Hidx; exact Hinc).
  assert (Hend : forall y v,
             In (y, v) (annual_table initial_investment data) ->
             year_end_value (investment_value initial_investment data) y v).
  { intros y v Hin. rewrite annual_table_eq in Hin.
    apply groupby_last_In in Hin. subst v. now apply groupby_year_end. }
  rewrite annual_table_eq, groupby_last_keys, Hidx.
  split; [intros y; apply group_keys_In |].
  split; [apply ascending_NoDup, group_keys_ascending |].
  split; [apply group_keys_ascending |].
  rewrite <- Hidx, <- annual_table_eq.
  split; [exact Hend |]. split; [| apply investment_value_present].
  intros y v d w Hin (Hd & Hy & Hlast) Hw Hwn.
  destruct (Hend y v Hin) as [(d1 & Hin1 & Hy1 & Hv1 & Hmax) | (_ & Hall)].
  - assert (E : d1 = d).
    { apply date_le_antisym.
      - apply Hlast; [| exact Hy1]. rewrite <- Hidx.
        apply (in_map fst) in Hin1. exact Hin1.
      - now apply (Hmax d w). }
    subst d1.
    apply (NoDup_index_functional (investment_value initial_investment data) d);
      [apply sorted_NoDup; exact Hs | exact Hin1 | exact Hw].
  - exfalso. apply Hwn. now apply (Hall d w).
Qed.

Lemma annual_table_year_ends_witness :
  increasing_dates Examples.three_days
  /\ (forall y, In y (map fst (annual_table 1000 Examples.three_days))
                <-> In y (map year (map fst Examples.three_days)))
  /\ NoDup (map fst (annual_table 1000 Examples.three_days))
  /\ StronglySorted Z.lt (map fst (annual_table 1000 Examples.three_days))
  /\ (forall y v,
        In (y, v) (annual_table 1000 Examples.three_days) ->
        year_end_value (investment_value 1000 Examples.three_days) y v)
  /\ (forall y v d w,
        In (y, v) (annual_table 1000 Examples.three_days) ->
        last_trading_date Examples.three_days y d ->
        In (d, w) (investment_value 1000 Examples.three_days) ->
        w <> NaN ->
        v = w)
  /\ (nonzero_prices Examples.three_days ->
      forall d w, In (d, w) (investment_value 1000 Examples.three_days) -> w <> NaN).
Proof.
  assert (Hd : increasing_dates Examples.three_days)
    by (unfold Examples.three_days; solve_dates).
  split; [exact Hd |].
  exact (annual_table_year_ends Examples.three_days 1000 Hd).
Defined.

Lemma zero_between_investment_value :
  investment_value 1000 Examples.zero_between
  = [(mkDate 2023 1 3, Fin 1000); (mkDate 2023 1 4, Fin 0); (mkDate 2023 1 5, NaN)].
Proof.
  apply series_ext.
  - rewrite index_investment_value. reflexivity.
  - rewrite values_investment_value, values_cumulative_return.
    cbn [Examples.zero_between prices map snd pct_vals].
    rewrite fdiv_nan_r, fdiv_fin, fdiv_pos_zero by lra.
    cbn [fsub isnan fadd map cumprod_from fmul values snd].
    rewrite Rzero_eq by lra. repeat f_equal; lra.
Qed.

(** C6, as stated, fails: with the prices 1, 0, 1 on three days of 2023 the
    Investment Value on the last trading date is missing (the return from
    price 0 is infinite, and 0 times infinity has no value), and the row of
    2023 holds the value of the day before, 0. *)
Lemma zero_price_hides_year_end :
  increasing_dates Examples.zero_between
  /\ last_trading_date Examples.zero_between 2023 (mkDate 2023 1 5)
  /\ In (mkDate 2023 1 5, NaN) (investment_value 1000 Examples.zero_between)
  /\ iloc_last (investment_value 1000 Examples.zero_between) = Ok NaN
  /\ annual_table 1000 Examples.zero_between = [(2023%Z, Fin 0)].
Proof.
  split; [unfold Examples.zero_between; solve_dates |].
  split.
  { split; [right; right; left; reflexivity |]. split; [reflexivity |].
    intros d' [<- | [<- | [<- | []]]] _; [right | right | left];
      unfold date_lt; cbn [year month day fst]; try lia; reflexivity. }
  split; [rewrite zero_between_investment_value; right; right; left; reflexivity |].
  split; [rewrite zero_between_investment_value; reflexivity |].
  rewrite annual_table_eq, zero_between_investment_value. reflexivity.
Qed.

(** The scenario of the specification: 100, 102, 101 on three days of 2023
    with 1000 invested give the single row (2023, 1010). *)
Lemma three_days_annual_table :
  annual_table 1000 Examples.three_days = [(2023%Z, Fin 1010)].
Proof.
  rewrite annual_table_eq. unfold Examples.three_days.
  rewrite investment_value_rows by (try solve_prices; lra).
  cbn. repeat f_equal. lra.
Qed.

End AnnualTableClaims.

(* ===================================================================== *)
(** * Covariance with the benchmark *)
(* ===================================================================== *)

Section Alignment.

Import Pandas.

Context {I : Type}.
Variable I_eqb : I -> I -> bool.
Hypothesis I_eqb_spec : forall i j, I_eqb i j = true <-> i = j.

(** Dropping rows of [other] does not change the lookup of a label that
    is kept. *)
Lemma lookup_filter (f : I -> bool) (i : I) (other : @Series I) :
  f i = true ->
  lookup I_eqb i (List.filter (fun row => f (fst row)) other) = lookup I_eqb i other.
Proof.
  intros Hf. induction other as [| [j w] other IH]; [reflexivity |].
  cbn [filter fst lookup]. destruct (I_eqb i j) eqn:E.
  - apply I_eqb_spec in E. subst j. rewrite Hf. cbn [lookup].
    now rewrite (I_eqb_refl I_eqb I_eqb_spec).
  - destruct (f j); [cbn [lookup]; rewrite E |]; exact IH.
Qed.

Lemma align_inner_filter (f : I -> bool) (s other : @Series I) :
  (forall i, In i (index s) -> f i = true) ->
  align_inner I_eqb s (List.filter (fun row => f (fst row)) other)
  = align_inner I_eqb s other.
Proof.
  induction s as [| [i a] s IH]; intros Hf; [reflexivity |].
  cbn [align_inner]. rewrite lookup_filter by (apply Hf; now left).
  rewrite IH by (intros j Hj; apply Hf; now right). reflexivity.
Qed.

Lemma existsb_index (i : I) (s : @Series I) :
  In i (index s) -> existsb (I_eqb i) (index s) = true.
Proof.
  intros H. apply existsb_exists. exists i. split; [exact H |].
  apply (I_eqb_refl I_eqb I_eqb_spec).
Qed.

(** Rows of the benchmark on dates that the ticker lacks do not enter the
    covariance. *)
Lemma cov_ignores_unmatched (s other : @Series I) :
  cov I_eqb s (List.filter (fun row => existsb (I_eqb (fst row)) (index s)) other)
  = cov I_eqb s other.
Proof.
  unfold cov.
  rewrite (align_inner_filter (fun i => existsb (I_eqb i) (index s))); [reflexivity |].
  intros i Hi. now apply existsb_index.
Qed.

(** Rows of the ticker without a value do not enter it either. *)
Lemma align_inner_dropna (s other : @Series I) :
  List.filter (fun p => notna (fst p) && notna (snd p)) (align_inner I_eqb (dropna s) other)
  = List.filter (fun p => notna (fst p) && notna (snd p)) (align_inner I_eqb s other).
Proof.
  induction s as [| [i a] s IH]; [reflexivity |].
  cbn [dropna filter snd]. fold (dropna s).
  destruct (notna a) eqn:Ha; cbn [align_inner];
    destruct (lookup I_eqb i other) as [b |]; try exact IH.
  - cbn [filter fst snd]. now rewrite IH.
  - cbn [filter fst snd]. rewrite Ha. exact IH.
Qed.

Lemma cov_dropna (s other : @Series I) : cov I_eqb (dropna s) other = cov I_eqb s other.
Proof. unfold cov. now rewrite align_inner_dropna. Qed.

End Alignment.

(** Evaluation of the float operations on sample values. *)
Ltac fcalc :=
  repeat (cbn [map fst snd combine Pandas.index Pandas.values Pandas.fsum
               Pandas.count fadd fsub fmul isnan notna negb filter length INR
               andb Nat.leb Nat.ltb Spec.pct_vals Pandas.zero_na];
          rewrite ?fdiv_nan_r;
          rewrite ?fdiv_fin by lra).

Ltac fin_eq :=
  repeat match goal with
         | |- Fin _ = Fin _ => apply Fin_eq; lra
         | |- _ :: _ = _ :: _ => f_equal
         | |- (_, _) = (_, _) => f_equal
         | |- Some _ = Some _ => f_equal
         end.

Section BetaClaims.

Import Pandas ETF Spec.

Lemma feqb_zero (x : float64) : feqb x (Fin 0) = true <-> x = Fin 0.
Proof.
  destruct x as [| s | a]; cbn [feqb]; try (split; discriminate).
  unfold Rzero. destruct (Req_EM_T (a - 0) 0) as [E | E].
  - split; [intros _; apply Fin_eq; lra | reflexivity].
  - split; [discriminate | intros [= ->]; exfalso; apply E; lra].
Qed.

(** C5, as amended. Beta is absent exactly when the benchmark download is
    empty or the variance of the benchmark returns is exactly 0; otherwise
    it is the covariance of the ticker and benchmark daily returns divided
    by the variance of the whole series of benchmark returns.  Only the
    covariance is aligned by date: benchmark rows on dates without a ticker
    return, and ticker rows without a return, do not enter it. *)
Theorem beta_of_returns (data market_data : PriceFrame) :
  (beta data market_data = None
   <-> market_data = [] \/ var (market_return market_data) = Fin 0)
  /\ (forall b : float64,
        beta data market_data = Some b ->
        b = fdiv (cov date_eqb (daily_return data) (market_return market_data))
                 (var (market_return market_data)))
  /\ cov date_eqb (daily_return data) (market_return market_data)
     = cov date_eqb (dropna (daily_return data))
           (matched (dropna (daily_return data)) (market_return market_data)).
Proof.
  split; [| split].
  - unfold beta. destruct market_data as [| row rest].
    + cbn [empty negb]. split; [now left | reflexivity].
    + cbn [empty negb]. unfold fneb.
      destruct (feqb (var (market_return (row :: rest))) (Fin 0)) eqn:E; cbn [negb].
      * apply feqb_zero in E. split; [now right | reflexivity].
      * split; [discriminate |]. intros [H | H]; [discriminate |].
        apply feqb_zero in H. congruence.
  - intros b. unfold beta. destruct (negb (empty market_data)); [| discriminate].
    destruct (fneb _ _); [| discriminate]. now intros [= <-].
  - unfold matched.
    rewrite (cov_ignores_unmatched date_eqb date_eqb_spec).
    now rewrite cov_dropna.
Qed.

Lemma young_fund_dates : NoDup (map fst Examples.young_fund).
Proof. apply sorted_NoDup. unfold Examples.young_fund. solve_dates. Qed.

Lemma young_fund_returns :
  daily_return Examples.young_fund
  = [(mkDate 2023 1 4, NaN); (mkDate 2023 1 5, Fin 0); (mkDate 2023 1 6, Fin 1)].
Proof.
  rewrite daily_return_pct_change by exact young_fund_dates.
  rewrite pct_change_eq. unfold Examples.young_fund, adj_close.
  fcalc. fin_eq.
Qed.

Lemma benchmark_returns :
  market_return Examples.benchmark
  = [(mkDate 2023 1 4, Fin 1); (mkDate 2023 1 5, Fin 0); (mkDate 2023 1 6, Fin 1)].
Proof.
  unfold market_return. rewrite pct_change_eq.
  unfold Examples.benchmark, adj_close, dropna.
  fcalc. fin_eq.
Qed.

Lemma young_fund_covariance :
  cov date_eqb (daily_return Examples.young_fund) (market_return Examples.benchmark)
  = Fin (1 / 2).
Proof.
  rewrite young_fund_returns, benchmark_returns. unfold cov.
  cbn [align_inner lookup date_eqb year month day Z.eqb Pos.eqb andb].
  fcalc. unfold np_cov. fcalc. fin_eq.
Qed.

Lemma benchmark_variance : var (market_return Examples.benchmark) = Fin (1 / 3).
Proof.
  rewrite benchmark_returns. unfold var, nanvar, nansum. fcalc. fin_eq.
Qed.

Lemma matched_benchmark_variance :
  var (matched (dropna (daily_return Examples.young_fund))
               (market_return Examples.benchmark))
  = Fin (1 / 2).
Proof.
  rewrite young_fund_returns, benchmark_returns. unfold matched, dropna.
  cbn [filter snd notna isnan negb index map fst existsb date_eqb year month day
       Z.eqb Pos.eqb andb orb].
  unfold var, nanvar, nansum. fcalc. fin_eq.
Qed.

(** C5, as stated, fails: the fund has no return on 2023-01-04, its first
    day, while the benchmark has one.  The variance in the script's beta is
    taken over all three benchmark returns, that day included, and beta
    is 3/2; recomputed from the two aligned dates alone it is 1. *)
Lemma beta_uses_unmatched_dates :
  beta Examples.young_fund Examples.benchmark = Some (Fin (3 / 2))
  /\ beta_on_matched_dates Examples.young_fund Examples.benchmark = Fin 1
  /\ beta Examples.young_fund Examples.benchmark
     <> Some (beta_on_matched_dates Examples.young_fund Examples.benchmark)
  /\ exists a : Analysis,
       analyze (Examples.serve_both Examples.young_fund Examples.benchmark []) "SPY"
         Examples.jan_03 Examples.jan_07 1000 = Report a
       /\ shown_beta a = Some (Fin (3 / 2)).
Proof.
  assert (H1 : beta Examples.young_fund Examples.benchmark = Some (Fin (3 / 2))).
  { unfold beta. rewrite young_fund_covariance, benchmark_variance.
    cbn [empty Examples.benchmark negb]. unfold fneb. cbn [feqb].
    rewrite (Rzero_neq (1 / 3 - 0)) by lra. cbn [negb].
    rewrite fdiv_fin by lra. fin_eq. }
  assert (H2 : beta_on_matched_dates Examples.young_fund Examples.benchmark = Fin 1).
  { unfold beta_on_matched_dates.
    rewrite young_fund_covariance, matched_benchmark_variance.
    rewrite fdiv_fin by lra. fin_eq. }
  split; [exact H1 |]. split; [exact H2 |].
  split; [rewrite H1, H2; intros [= E]; lra |].
  destruct (analyze_report
              (Examples.serve_both Examples.young_fund Examples.benchmark []) "SPY"
              Examples.jan_03 Examples.jan_07 1000)
    as (c & dy & _ & _ & Ha);
    [reflexivity | discriminate | discriminate
    | apply return_dates_NoDup;
      change (NoDup (map fst Examples.young_fund));
      apply sorted_NoDup; unfold Examples.young_fund; solve_dates
    | vm_compute; discriminate |].
  eexists. split; [exact Ha |]. exact H1.
Qed.

End BetaClaims.

(* ===================================================================== *)
(** * The worked scenario *)
(* ===================================================================== *)

Section Scenario.

Import Pandas ETF Spec.

(** Prices 100, 102, 101 with 1000 invested: the investment is worth
    1000, 1020, 1010 and the total return is 0.01. *)
Lemma three_days_investment_value :
  investment_value 1000 Examples.three_days
  = [(mkDate 2023 1 3, Fin 1000); (mkDate 2023 1 4, Fin 1020);
     (mkDate 2023 1 5, Fin 1010)].
Proof.
  unfold Examples.three_days.
  rewrite investment_value_rows by (try solve_prices; lra).
  cbn [map fst snd]. fin_eq.
Qed.


(** A frame that starts at price 0: the first return is an infinity, and so
    are the total return and the CAGR that the report shows. *)
Lemma zero_price_total_return :
  total_return [(mkDate 2023 1 3, 0); (mkDate 2023 1 4, 1)] = Ok (Inf false).
Proof.
  rewrite total_return_ok by discriminate.
  rewrite values_cumulative_return.
  cbn [prices map snd pct_vals]. rewrite fdiv_nan_r, fdiv_pos_zero by lra.
  cbn [fsub isnan fadd cumprod_from fmul last Bool.eqb negb].
  rewrite Rzero_neq, Rneg_ge by lra. reflexivity.
Qed.

Lemma zero_price_shows_infinite_cagr :
  exists a : Analysis,
    analyze (Examples.serve [(mkDate 2023 1 3, 0); (mkDate 2023 1 4, 1)] []) "SPY"
      Examples.jan_03 Examples.jan_07 1000 = Report a
    /\ shown_cagr a = Inf false.
Proof.
  destruct (analyze_report
              (Examples.serve [(mkDate 2023 1 3, 0); (mkDate 2023 1 4, 1)] []) "SPY"
              Examples.jan_03 Examples.jan_07 1000)
    as (c & dy & Hc & _ & Ha);
    [reflexivity | discriminate | discriminate
    | apply return_dates_NoDup, sorted_NoDup;
      cbn [download Examples.serve]; solve_dates
    | vm_compute; discriminate |].
  eexists. split; [exact Ha |]. cbn [shown_cagr].
  cbn [download Examples.serve] in Hc. unfold cagr in Hc.
  rewrite zero_price_total_return in Hc. cbn [bind] in Hc.
  unfold cagr_of in Hc.
  rewrite py_truediv_ok in Hc
    by (apply years_nonzero; vm_compute; discriminate).
  cbn [bind] in Hc.
  rewrite (cagr_not_finite (Inf false)) in Hc;
    [congruence | apply exponent_pos; [reflexivity | vm_compute; discriminate] | now right].
Qed.

End Scenario.

Section ClockChange.

Import Pandas ETF Spec.



End ClockChange.

(* ===================================================================== *)
(** * The outcomes of a run *)
(* ===================================================================== *)

Section Outcomes.

Import Pandas ETF Spec.

Lemma geb_false_lt (a b : Z) : (a >=? b)%Z = false <-> (a < b)%Z.
Proof. rewrite Z.geb_leb. apply Z.leb_gt. Qed.

Lemma geb_true_ge (a b : Z) : (a >=? b)%Z = true <-> (b <= a)%Z.
Proof. rewrite Z.geb_leb. apply Z.leb_le. Qed.

(** X1. The page shows the report exactly when the end date is after the
    start date, the symbol is not empty, the download has rows, no two rows
    that carry a daily return have the same date, and the two dates are at
    least one whole day apart. *)
Theorem report_iff
    (P : Provider) (etf_symbol : string) (start_date end_date : Timestamp)
    (initial_investment : Z) :
  (exists a, analyze P etf_symbol start_date end_date initial_investment = Report a)
  <-> (start_date < end_date)%Z
      /\ etf_symbol <> ""%string
      /\ download P etf_symbol start_date end_date <> []
      /\ NoDup (return_dates (download P etf_symbol start_date end_date))
      /\ days (end_date - start_date) <> 0%Z.
Proof.
  split.
  - intros [a Ha].
    pose proof (analyze_report_inv _ _ _ _ _ _ Ha) as (Hlt & Hsym & Hdata & _).
    pose proof (analyze_report_distinct _ _ _ _ _ _ Ha) as Hnd.
    repeat split; try assumption.
    intros Hdays.
    rewrite (short_span_raises P etf_symbol start_date end_date initial_investment
               Hlt Hsym Hdata Hnd Hdays) in Ha.
    discriminate.
  - intros (Hlt & Hsym & Hdata & Hnd & Hdays).
    destruct (analyze_report P etf_symbol start_date end_date initial_investment
                Hlt Hsym Hdata Hnd Hdays) as (c & dy & _ & _ & Ha).
    eexists. exact Ha.
Qed.

Lemma repeated_date_returns :
  ~ NoDup (return_dates Examples.repeated_date).
Proof.
  rewrite return_dates_nonzero by (unfold Examples.repeated_date; solve_prices).
  cbn [Examples.repeated_date map fst tl].
  intros H. inversion H as [| ? ? Hin _]. apply Hin. now left.
Qed.

(** X2. Two exceptions escape a run that passed the input checks and found
    price rows.  When two rows that carry a daily return have the same
    date, the assignment of the return column raises [ValueError], whatever
    the dates of the request.  Otherwise, when the two dates are less than
    one whole day apart, [1/years] raises [ZeroDivisionError].  After the
    check for an empty frame, [iloc] is never out of range: no run ends
    with [IndexError]. *)
Theorem escaping_exceptions
    (P : Provider) (etf_symbol : string) (start_date end_date : Timestamp)
    (initial_investment : Z) :
  (start_date < end_date)%Z ->
  etf_symbol <> ""%string ->
  download P etf_symbol start_date end_date <> [] ->
  (~ NoDup (return_dates (download P etf_symbol start_date end_date)) ->
   analyze P etf_symbol start_date end_date initial_investment
   = Uncaught ValueError)
  /\ (NoDup (return_dates (download P etf_symbol start_date end_date)) ->
      days (end_date - start_date) = 0%Z ->
      analyze P etf_symbol start_date end_date initial_investment
      = Uncaught ZeroDivisionError)
  /\ analyze P etf_symbol start_date end_date initial_investment
     <> Uncaught IndexError.
Proof.
  intros Hlt Hsym Hdata.
  split; [now apply repeated_date_raises |].
  split; [now apply short_span_raises |].
  destruct (NoDup_dates_dec (return_dates (download P etf_symbol start_date end_date)))
    as [Hnd | Hnd].
  - destruct (Z.eq_dec (days (end_date - start_date)) 0) as [Hdays | Hdays].
    + rewrite (short_span_raises P etf_symbol start_date end_date initial_investment
                 Hlt Hsym Hdata Hnd Hdays).
      discriminate.
    + destruct (analyze_report P etf_symbol start_date end_date initial_investment
                  Hlt Hsym Hdata Hnd Hdays) as (c & dy & _ & _ & Ha).
      rewrite Ha. discriminate.
  - rewrite (repeated_date_raises P etf_symbol start_date end_date initial_investment
               Hlt Hsym Hdata Hnd).
    discriminate.
Qed.

Lemma escaping_exceptions_witness :
  (Examples.jan_03 < Examples.jan_07)%Z
  /\ "SPY"%string <> ""%string
  /\ download (Examples.serve Examples.repeated_date []) "SPY"
       Examples.jan_03 Examples.jan_07 <> []
  /\ analyze (Examples.serve Examples.repeated_date []) "SPY"
       Examples.jan_03 Examples.jan_07 1000 = Uncaught ValueError.
Proof.
  split; [reflexivity |]. split; [discriminate |]. split; [discriminate |].
  apply (escaping_exceptions (Examples.serve Examples.repeated_date []) "SPY"
           Examples.jan_03 Examples.jan_07 1000);
    [reflexivity | discriminate | discriminate | exact repeated_date_returns].
Defined.

(** X3. The three error messages and their order: the date check comes
    first, whatever the symbol and the provider; then the empty symbol; the
    message that names the ticker is shown exactly when both checks pass and
    the download has no rows. *)
Theorem error_iff
    (P : Provider) (etf_symbol : string) (start_date end_date : Timestamp)
    (initial_investment : Z) (msg : string) :
  analyze P etf_symbol start_date end_date initial_investment = StError msg
  <-> ((end_date <= start_date)%Z
       /\ msg = "End date must be after the start date."%string)
      \/ ((start_date < end_date)%Z /\ etf_symbol = ""%string
          /\ msg = "Please enter an ETF symbol."%string)
      \/ ((start_date < end_date)%Z /\ etf_symbol <> ""%string
          /\ download P etf_symbol start_date end_date = []
          /\ msg = ("'" ++ etf_symbol
                    ++ "' is not a valid ETF symbol or has no data for the selected date range.")%string).
Proof.
  unfold analyze.
  destruct (start_date >=? end_date)%Z eqn:Hge.
  - apply geb_true_ge in Hge. split.
    + intros [= <-]. left. now split.
    + intros [(_ & ->) | [(Hlt & _) | (Hlt & _)]]; [reflexivity | lia | lia].
  - apply geb_false_lt in Hge.
    destruct (etf_symbol =? "")%string eqn:Hsym.
    + apply String.eqb_eq in Hsym. split.
      * intros [= <-]. right. left. repeat split; assumption.
      * intros [(Hle & _) | [(_ & _ & ->) | (_ & Hne & _)]];
          [lia | reflexivity | contradiction].
    + apply String.eqb_neq in Hsym.
      destruct (download P etf_symbol start_date end_date) as [| row rest] eqn:Hd.
      * cbn [empty]. split.
        -- intros [= <-]. right. right. repeat split; assumption.
        -- intros [(Hle & _) | [(_ & He & _) | (_ & _ & _ & ->)]];
             [lia | contradiction | reflexivity].
      * cbn [empty]. split.
        -- destruct (metrics P etf_symbol start_date end_date initial_investment
                       (row :: rest)); discriminate.
        -- intros [(Hle & _) | [(_ & He & _) | (_ & _ & He & _)]];
             [lia | contradiction | discriminate].
Qed.

End Outcomes.

(* ===================================================================== *)
(** * The return column and the Sharpe ratio *)
(* ===================================================================== *)

Section ReturnColumn.

Import Pandas ETF Spec Quantities.

(** X4. On a frame with distinct dates the [dropna()] of
    [data['Daily Return'] = data['Adj Close'].pct_change().dropna()] has no
    effect: the assignment aligns the series on the index of the frame again,
    so the column is [pct_change()] itself, with one row per price row and
    (on a non-empty frame) a missing first entry. *)
Theorem daily_return_column (data : PriceFrame) :
  NoDup (map fst data) ->
  daily_return data = pct_change (adj_close data)
  /\ index (daily_return data) = map fst data
  /\ (data <> [] -> exists rest, values (daily_return data) = NaN :: rest).
Proof.
  intros Hnd. rewrite daily_return_pct_change by exact Hnd.
  split; [reflexivity |]. split.
  - now rewrite index_pct_change, index_adj_close.
  - intros Hne. rewrite values_pct_change, values_adj_close.
    destruct data as [| [d0 p0] rest]; [congruence |].
    cbn [prices map snd pct_vals]. rewrite fdiv_nan_r. cbn [fsub].
    eexists. reflexivity.
Qed.

Lemma daily_return_column_witness :
  NoDup (map fst Examples.three_days)
  /\ daily_return Examples.three_days = pct_change (adj_close Examples.three_days)
  /\ index (daily_return Examples.three_days) = map fst Examples.three_days
  /\ (Examples.three_days <> [] ->
      exists rest, values (daily_return Examples.three_days) = NaN :: rest).
Proof.
  assert (Hnd : NoDup (map fst Examples.three_days))
    by (apply sorted_NoDup; unfold Examples.three_days; solve_dates).
  split; [exact Hnd |].
  exact (daily_return_column Examples.three_days Hnd).
Defined.





Lemma three_days_prices : nonzero_prices Examples.three_days.
Proof. unfold Examples.three_days. solve_prices. Qed.



End ReturnColumn.

(* ===================================================================== *)
(** * Beta on a shared trading calendar *)
(* ===================================================================== *)

Section SharedCalendar.

Import Pandas ETF Spec Quantities.















End SharedCalendar.

Section BetaProperties.

Import Pandas ETF Spec Quantities.




Lemma count_le_length (vs : list float64) : (count vs <= length vs)%nat.
Proof. unfold count. apply filter_length_le. Qed.

(** The benchmark return series has at most one entry less than the frame
    has rows: the first row has no return. *)
Lemma market_return_length (market_data : PriceFrame) :
  market_data <> [] ->
  (S (length (market_return market_data)) <= length market_data)%nat.
Proof.
  intros Hne. destruct market_data as [| [d0 p0] rest]; [congruence |].
  unfold market_return. rewrite pct_change_eq, index_adj_close, values_adj_close.
  cbn [prices map snd fst pct_vals]. rewrite fdiv_nan_r.
  cbn [fsub combine dropna filter snd notna isnan negb length].
  apply le_n_S.
  etransitivity; [apply filter_length_le |].
  rewrite length_combine, length_pct_vals, !length_map. lia.
Qed.

(** X10. With a benchmark download of one or two rows (at most one
    benchmark return) the variance is [NaN]; [NaN != 0] holds, so beta is not
    [None] but the number [NaN], whatever the ticker data. *)
Theorem short_benchmark_beta_is_nan (data market_data : PriceFrame) :
  market_data <> [] ->
  (length market_data <= 2)%nat ->
  beta data market_data = Some NaN.
Proof.
  intros Hne Hlen. unfold beta.
  destruct market_data as [| row rest] eqn:E; [congruence |].
  cbn [empty negb]. rewrite <- E in *.
  assert (Hvar : var (market_return market_data) = NaN).
  { unfold var. apply nanvar_few.
    pose proof (market_return_length market_data Hne) as Hl.
    pose proof (count_le_length (values (market_return market_data))) as Hc.
    rewrite length_values in Hc. lia. }
  rewrite Hvar. cbn [fneb feqb negb]. now rewrite fdiv_nan_r.
Qed.

Lemma short_benchmark_beta_is_nan_witness :
  Examples.one_day <> []
  /\ (length Examples.one_day <= 2)%nat
  /\ beta Examples.three_days Examples.one_day = Some NaN.
Proof.
  split; [discriminate |]. split; [cbn; lia |].
  apply (short_benchmark_beta_is_nan Examples.three_days Examples.one_day);
    [discriminate | cbn; lia].
Defined.

End BetaProperties.

(* ===================================================================== *)
(** * Price scale, dividends and the sign of the CAGR *)
(* ===================================================================== *)

Section Scale.

Import Pandas ETF Spec Quantities.

Lemma prices_rescale k data : prices (rescale k data) = map (fun p => k * p) (prices data).
Proof. unfold prices, rescale. rewrite !map_map. reflexivity. Qed.

Lemma dates_rescale k data : map fst (rescale k data) = map fst data.
Proof. unfold rescale. rewrite map_map. reflexivity. Qed.

Lemma returns_from_rescale (k : R) (ps : list R) :
  k <> 0 ->
  Forall (fun p => p <> 0) ps ->
  forall prev, prev <> 0 ->
  returns_from (k * prev) (map (fun p => k * p) ps) = returns_from prev ps.
Proof.
  intros Hk. induction 1 as [| p ps Hp Hps IH]; intros prev Hprev; [reflexivity |].
  cbn [map returns_from]. f_equal; [field; split; assumption | now apply IH].
Qed.

Lemma Forall_rescale (k : R) (ps : list R) :
  k <> 0 ->
  Forall (fun p => p <> 0) ps ->
  Forall (fun p => p <> 0) (map (fun p => k * p) ps).
Proof.
  intros Hk H. apply Forall_map. revert H. apply Forall_impl.
  intros p Hp. now apply Rmult_integral_contrapositive_currified.
Qed.

(** The series of percentage changes does not see a common factor. *)
Lemma pct_change_rescale (k : R) (data : PriceFrame) :
  k <> 0 ->
  nonzero_prices data ->
  pct_change (adj_close (rescale k data)) = pct_change (adj_close data).
Proof.
  intros Hk Hnz. rewrite !pct_change_eq, !index_adj_close, !values_adj_close.
  rewrite dates_rescale, prices_rescale. f_equal.
  unfold nonzero_prices in Hnz.
  destruct (prices data) as [| p0 rest]; [reflexivity |].
  inversion Hnz; subst.
  cbn [map pct_vals]. rewrite !fdiv_nan_r. f_equal.
  rewrite !pct_vals_Fin;
    [| assumption | assumption
     | now apply Forall_rescale
     | now apply Rmult_integral_contrapositive_currified].
  f_equal. now apply returns_from_rescale.
Qed.

(** X11. Multiplying every price of the ticker by the same non-zero factor
    changes none of the quantities derived from returns: the daily and
    cumulative returns, the investment values and the annual table, the
    total return and CAGR, the volatility, the Sharpe ratio and beta are the
    same. *)
Theorem rescale_invariance (k : R) (data : PriceFrame) :
  k <> 0 ->
  nonzero_prices data ->
  daily_return (rescale k data) = daily_return data
  /\ cumulative_return (rescale k data) = cumulative_return data
  /\ (forall initial_investment,
        investment_value initial_investment (rescale k data)
        = investment_value initial_investment data
        /\ annual_table initial_investment (rescale k data)
           = annual_table initial_investment data)
  /\ total_return (rescale k data) = total_return data
  /\ (forall start_date end_date,
        cagr (rescale k data) start_date end_date = cagr data start_date end_date)
  /\ annualized_volatility (rescale k data) = annualized_volatility data
  /\ annualized_sharpe_ratio (rescale k data) = annualized_sharpe_ratio data
  /\ (forall market_data, beta (rescale k data) market_data = beta data market_data).
Proof.
  intros Hk Hnz.
  pose proof (pct_change_rescale k data Hk Hnz) as Hpct.
  assert (Hidx : index (adj_close (rescale k data)) = index (adj_close data))
    by (rewrite !index_adj_close; apply dates_rescale).
  assert (Hd : daily_return (rescale k data) = daily_return data)
    by (unfold daily_return; now rewrite Hpct, Hidx).
  assert (Hc : cumulative_return (rescale k data) = cumulative_return data)
    by (unfold cumulative_return; now rewrite Hpct).
  assert (Hi : forall init, investment_value init (rescale k data)
                            = investment_value init data)
    by (intros init; unfold investment_value; now rewrite Hc).
  assert (Ht : total_return (rescale k data) = total_return data)
    by (unfold total_return; now rewrite Hc).
  split; [exact Hd |]. split; [exact Hc |]. split.
  { intros init. split; [apply Hi |]. unfold annual_table. now rewrite Hidx, Hi. }
  split; [exact Ht |]. split.
  { intros s e. unfold cagr. now rewrite Ht. }
  split; [unfold annualized_volatility, daily_volatility; now rewrite Hd |].
  split.
  { unfold annualized_sharpe_ratio, daily_sharpe_ratio, daily_excess_return,
      daily_volatility. now rewrite Hd. }
  intros m. unfold beta. now rewrite Hd.
Qed.

Lemma rescale_invariance_witness :
  2 <> 0
  /\ nonzero_prices Examples.three_days
  /\ daily_return (rescale 2 Examples.three_days) = daily_return Examples.three_days
  /\ cumulative_return (rescale 2 Examples.three_days)
     = cumulative_return Examples.three_days
  /\ (forall initial_investment,
        investment_value initial_investment (rescale 2 Examples.three_days)
        = investment_value initial_investment Examples.three_days
        /\ annual_table initial_investment (rescale 2 Examples.three_days)
           = annual_table initial_investment Examples.three_days)
  /\ total_return (rescale 2 Examples.three_days) = total_return Examples.three_days
  /\ (forall start_date end_date,
        cagr (rescale 2 Examples.three_days) start_date end_date
        = cagr Examples.three_days start_date end_date)
  /\ annualized_volatility (rescale 2 Examples.three_days)
     = annualized_volatility Examples.three_days
  /\ annualized_sharpe_ratio (rescale 2 Examples.three_days)
     = annualized_sharpe_ratio Examples.three_days
  /\ (forall market_data,
        beta (rescale 2 Examples.three_days) market_data
        = beta Examples.three_days market_data).
Proof.
  assert (H2 : 2 <> 0) by lra.
  split; [exact H2 |]. split; [exact three_days_prices |].
  exact (rescale_invariance 2 Examples.three_days H2 three_days_prices).
Defined.

End Scale.

Section Dividends.

Import Pandas ETF Spec.

Lemma Rsum_nonneg (rs : list R) : Forall (fun r => 0 <= r) rs -> 0 <= Rsum rs.
Proof. induction 1 as [| r rs Hr Hrs IH]; cbn [Rsum]; cbn beta in *; lra. Qed.

Lemma in_window_amounts_le (start_date end_date : Timestamp)
    (dividends : list (Timestamp * R)) :
  Forall (fun d => 0 <= snd d) dividends ->
  0 <= Rsum (map snd (in_window start_date end_date dividends))
    <= Rsum (map snd dividends).
Proof.
  unfold in_window. induction 1 as [| d ds Hd Hds IH]; cbn [filter map Rsum]; [lra |].
  destruct IH as [IHlo IHhi]. cbn beta in Hd.
  match goal with |- context [if ?b then _ else _] => destruct b end;
    cbn [map Rsum]; split; lra.
Qed.

(** X12. When the first adjusted close is positive and no dividend amount
    is negative, the dividend yield of a ticker with a dividend history is a
    finite number between 0 and the yield of the whole history: payments
    outside the window only lower it. *)
Theorem dividend_yield_bounds
    (data : PriceFrame) (dividends : list (Timestamp * R))
    (start_date end_date : Timestamp) (p0 : R) :
  hd_error (prices data) = Some p0 ->
  0 < p0 ->
  Forall (fun d => 0 <= snd d) dividends ->
  dividends <> [] ->
  exists y : R,
    dividend_yield data dividends start_date end_date = Ok (Some (Fin y))
    /\ 0 <= y <= Rsum (map snd dividends) / p0.
Proof.
  intros Hhd Hp0 Hnn Hne.
  destruct data as [| [d0 q0] rest]; [discriminate |].
  cbn [prices map snd hd_error] in Hhd. injection Hhd as ->.
  rewrite dividend_yield_eq. destruct dividends as [| dv dividends]; [congruence |].
  rewrite fdiv_fin by lra. eexists. split; [reflexivity |].
  pose proof (in_window_amounts_le start_date end_date (dv :: dividends) Hnn) as [Hlo Hhi].
  assert (Hinv : 0 < / p0) by now apply Rinv_0_lt_compat.
  unfold Rdiv. split.
  - apply Rmult_le_pos; lra.
  - apply Rmult_le_compat_r; lra.
Qed.

Lemma dividend_yield_bounds_witness :
  hd_error (prices Examples.three_days) = Some 100
  /\ 0 < 100
  /\ Forall (fun d => 0 <= snd d) [(Examples.dec_16, 1.5); (Examples.jan_03, 2)]
  /\ [(Examples.dec_16, 1.5); (Examples.jan_03, 2)] <> []
  /\ exists y : R,
       dividend_yield Examples.three_days
         [(Examples.dec_16, 1.5); (Examples.jan_03, 2)]
         Examples.jan_03 Examples.jan_07 = Ok (Some (Fin y))
       /\ 0 <= y <= Rsum (map snd [(Examples.dec_16, 1.5); (Examples.jan_03, 2)]) / 100.
Proof.
  assert (H0 : 0 < 100) by lra.
  assert (Hnn : Forall (fun d : Timestamp * R => 0 <= snd d)
                  [(Examples.dec_16, 1.5); (Examples.jan_03, 2)])
    by (repeat apply Forall_cons; try apply Forall_nil; cbn [snd]; lra).
  split; [reflexivity |]. split; [exact H0 |]. split; [exact Hnn |].
  split; [discriminate |].
  apply (dividend_yield_bounds Examples.three_days
           [(Examples.dec_16, 1.5); (Examples.jan_03, 2)]
           Examples.jan_03 Examples.jan_07 100);
    [reflexivity | exact H0 | exact Hnn | discriminate].
Defined.

End Dividends.

(* ===================================================================== *)
(** * The last row of the annual table *)
(* ===================================================================== *)

Section FinalValue.

Import Pandas ETF Spec.

Lemma last_in {A : Type} (l : list A) (d : A) : l <> [] -> In (last l d) l.
Proof.
  induction l as [| a l IH]; [congruence |]. intros _.
  destruct l as [| b l]; [now left |].
  right. apply IH. discriminate.
Qed.

Lemma last_sorted_max (l : list Z) (m d : Z) :
  StronglySorted Z.lt l -> In m l -> (forall x, In x l -> (x <= m)%Z) ->
  last l d = m.
Proof.
  induction 1 as [| a l Hs IH Hall]; intros Hin Hmax; [contradiction |].
  destruct l as [| b l].
  - destruct Hin as [-> | []]. reflexivity.
  - change (last (a :: b :: l) d) with (last (b :: l) d).
    apply IH.
    + destruct Hin as [<- | Hin]; [| exact Hin].
      exfalso. rewrite Forall_forall in Hall.
      specialize (Hall b ltac:(now left)). specialize (Hmax b ltac:(right; now left)). lia.
    + intros x Hx. apply Hmax. now right.
Qed.

Lemma dates_le_last (l : list Date) (dflt d : Date) :
  StronglySorted date_lt l -> In d l -> date_le d (last l dflt).
Proof.
  induction 1 as [| a l Hs IH Hall]; intros Hin; [contradiction |].
  destruct l as [| b l].
  - destruct Hin as [-> | []]. now left.
  - change (last (a :: b :: l) dflt) with (last (b :: l) dflt).
    destruct Hin as [<- | Hin]; [| now apply IH].
    right. rewrite Forall_forall in Hall. apply Hall. apply last_in. discriminate.
Qed.

Lemma date_le_year (a b : Date) : date_le a b -> (year a <= year b)%Z.
Proof. intros [-> | H]; [lia |]. unfold date_lt in H. lia. Qed.

Lemma last_filter {A : Type} (f : A -> bool) (l : list A) (d : A) :
  l <> [] -> f (last l d) = true -> last (List.filter f l) d = last l d.
Proof.
  induction l as [| a l IH]; [congruence |]. intros _ Hf.
  destruct l as [| b l].
  - cbn [last] in Hf. cbn [filter]. now rewrite Hf.
  - change (last (a :: b :: l) d) with (last (b :: l) d) in *.
    specialize (IH ltac:(discriminate) Hf).
    cbn [filter] in IH |- *. destruct (f a); [| exact IH].
    destruct (if f b then b :: List.filter f l else List.filter f l) as [| c rows] eqn:E.
    + exfalso. assert (Hin : In (last (b :: l) d) (List.filter f (b :: l))).
      { apply filter_In. split; [apply last_in; discriminate | exact Hf]. }
      cbn [filter] in Hin. rewrite E in Hin. contradiction.
    + exact IH.
Qed.

Lemma last_default {A : Type} (l : list A) (a b : A) :
  l <> [] -> last l a = last l b.
Proof.
  induction l as [| x l IH]; [congruence |]. intros _.
  destruct l as [| y l]; [reflexivity |]. apply IH. discriminate.
Qed.

Lemma last_valid_last (vs : list float64) :
  last vs NaN <> NaN -> last_valid vs = last vs NaN.
Proof.
  induction vs as [| v vs IH]; [intros H; now contradiction H |]. intros Hl.
  destruct vs as [| w vs].
  - reflexivity.
  - change (last (v :: w :: vs) NaN) with (last (w :: vs) NaN) in *.
    change (last_valid (v :: w :: vs))
      with (match last_valid (w :: vs) with NaN => v | u => u end).
    rewrite IH by exact Hl.
    destruct (last (w :: vs) NaN); [congruence | reflexivity | reflexivity].
Qed.

(** X14. On a frame with strictly increasing dates whose final Investment
    Value is not missing, the last row of the annual table belongs to the
    year of the last trading date, and its value is that final Investment
    Value, the last point of the chart. *)
Theorem table_ends_at_final_value
    (data : PriceFrame) (initial_investment : Z) (v : float64) :
  increasing_dates data ->
  iloc_last (investment_value initial_investment data) = Ok v ->
  v <> NaN ->
  exists d : Date,
    last (map fst data) d = d
    /\ last (investment_value initial_investment data) (d, NaN) = (d, v)
    /\ last (annual_table initial_investment data) (0%Z, NaN) = (year d, v).
Proof.
  intros Hinc Hlast Hv. unfold increasing_dates in Hinc.
  rewrite annual_table_eq.
  rewrite <- (index_investment_value initial_investment data) in Hinc |- *.
  generalize dependent (investment_value initial_investment data).
  clear data initial_investment. intros col Hinc Hlast.
  destruct col as [| [d0 v0] rest]; [discriminate |].
  set (col := (d0, v0) :: rest) in *.
  assert (Hne : col <> []) by discriminate.
  rewrite iloc_last_values in Hlast by exact Hne.
  assert (Hfinal : last (values col) NaN = v) by congruence.
  clear Hlast. rename Hfinal into Hlast.
  set (dl := fst (last col (d0, NaN))).
  assert (Hlast_dates : last (index col) dl = dl)
    by (apply (last_map_default fst col (d0, NaN) dl); exact Hne).
  assert (Hlast_row : last col (dl, NaN) = (dl, v)).
  { unfold values in Hlast.
    rewrite (last_map_default snd col (d0, NaN) NaN) in Hlast by exact Hne.
    rewrite (last_default col (dl, NaN) (d0, NaN)) by exact Hne. unfold dl. rewrite <- Hlast. now destruct (last col (d0, NaN)). }
  exists dl. split; [exact Hlast_dates |]. split; [exact Hlast_row |].
  unfold groupby_last.
  assert (Hyear : In (year dl) (group_keys (map year (index col)))).
  { apply group_keys_In. apply in_map.
    rewrite <- Hlast_dates. apply last_in. discriminate. }
  assert (Hkey : last (group_keys (map year (index col))) 0%Z = year dl).
  { apply last_sorted_max; [apply group_keys_ascending | exact Hyear |].
    intros y Hy. apply (proj1 (group_keys_In _ _)) in Hy.
    apply in_map_iff in Hy. destruct Hy as (d & <- & Hd).
    apply date_le_year. rewrite <- Hlast_dates.
    now apply dates_le_last. }
  rewrite (last_map_default _ _ 0%Z (0%Z, NaN))
    by (intros E; rewrite E in Hyear; contradiction).
  rewrite Hkey. f_equal. rewrite group_rows.
  set (f := fun dv : Date * float64 => (year (fst dv) =? year dl)%Z).
  assert (Hf : f (last col (dl, NaN)) = true)
    by (rewrite Hlast_row; unfold f; cbn [fst]; apply Z.eqb_refl).
  pose proof (last_filter f col (dl, NaN) Hne Hf) as Hlf.
  assert (Hrows : List.filter f col <> []).
  { intros E. assert (Hin : In (last col (dl, NaN)) (List.filter f col)).
    { apply filter_In. split; [apply last_in; exact Hne | exact Hf]. }
    rewrite E in Hin. contradiction. }
  assert (Hval : last (values (List.filter f col)) NaN = v).
  { unfold values.
    rewrite (last_map_default snd _ (dl, NaN) NaN) by exact Hrows.
    now rewrite Hlf, Hlast_row. }
  rewrite last_valid_last; [exact Hval | now rewrite Hval].
Qed.

Lemma table_ends_at_final_value_witness :
  increasing_dates Examples.three_days
  /\ iloc_last (investment_value 1000 Examples.three_days) = Ok (Fin 1010)
  /\ Fin 1010 <> NaN
  /\ exists d : Date,
       last (map fst Examples.three_days) d = d
       /\ last (investment_value 1000 Examples.three_days) (d, NaN) = (d, Fin 1010)
       /\ last (annual_table 1000 Examples.three_days) (0%Z, NaN)
          = (year d, Fin 1010).
Proof.
  assert (Hd : increasing_dates Examples.three_days)
    by (unfold Examples.three_days; solve_dates).
  assert (Hl : iloc_last (investment_value 1000 Examples.three_days) = Ok (Fin 1010))
    by (rewrite three_days_investment_value; reflexivity).
  split; [exact Hd |]. split; [exact Hl |]. split; [discriminate |].
  apply (table_ends_at_final_value Examples.three_days 1000 (Fin 1010));
    [exact Hd | exact Hl | discriminate].
Defined.

End FinalValue.

(* ===================================================================== *)
(** * The widgets and the lines of the report *)
(* ===================================================================== *)

Section PageProperties.

Import Pandas ETF Spec Page.

Lemma upper_empty_iff (s : string) : upper s = ""%string <-> s = ""%string.
Proof. destruct s; cbn [upper]; split; intros H; (reflexivity || discriminate). Qed.

Lemma listed_symbol (selected_etf typed : string) :
  In selected_etf high_volume_etfs ->
  selected_etf <> "Enter your own"%string ->
  etf_symbol selected_etf typed = selected_etf /\ selected_etf <> ""%string.
Proof.
  intros Hin Hne. unfold etf_symbol.
  apply String.eqb_neq in Hne. rewrite Hne. split; [reflexivity |].
  unfold high_volume_etfs in Hin. cbn [In] in Hin.
  repeat (destruct Hin as [<- | Hin]; [discriminate |]). contradiction.
Qed.

(** X15. A symbol picked from the list is analyzed as it is and the text
    field is ignored; the error "Please enter an ETF symbol." appears exactly
    when the dates are in order, "Enter your own" is selected and the text
    field is empty. *)
Theorem symbol_error_iff
    (P : Provider) (selected_etf typed : string)
    (start_date end_date : Timestamp) (initial_investment : Z) :
  In selected_etf high_volume_etfs ->
  (selected_etf <> "Enter your own"%string ->
   on_analyze P selected_etf typed start_date end_date initial_investment
   = analyze P selected_etf start_date end_date initial_investment)
  /\ (on_analyze P selected_etf typed start_date end_date initial_investment
      = StError "Please enter an ETF symbol."
      <-> (start_date < end_date)%Z
          /\ selected_etf = "Enter your own"%string
          /\ typed = ""%string).
Proof.
  intros Hin. split.
  - intros Hne. unfold on_analyze.
    now rewrite (proj1 (listed_symbol selected_etf typed Hin Hne)).
  - assert (Hsym : etf_symbol selected_etf typed = ""%string
                   <-> selected_etf = "Enter your own"%string /\ typed = ""%string).
    { destruct (String.eqb_spec selected_etf "Enter your own") as [-> | Hne].
      - unfold etf_symbol. cbn [String.eqb Ascii.eqb Bool.eqb].
        rewrite upper_empty_iff. tauto.
      - destruct (listed_symbol selected_etf typed Hin Hne) as [-> Hnonempty]. tauto. }
    unfold on_analyze, analyze.
    destruct (start_date >=? end_date)%Z eqn:Hge.
    + apply geb_true_ge in Hge. split; [discriminate | intros (Hlt & _); lia].
    + apply geb_false_lt in Hge.
      destruct (etf_symbol selected_etf typed =? "")%string eqn:He.
      * apply String.eqb_eq in He. apply Hsym in He. tauto.
      * apply String.eqb_neq in He. split.
        -- destruct (empty _); [unfold no_data_message; cbn [append]; discriminate |].
           destruct (metrics _ _ _ _ _ _); discriminate.
        -- intros (_ & Hs & Ht). exfalso. apply He. apply Hsym. tauto.
Qed.

Lemma symbol_error_iff_witness :
  In "Enter your own"%string high_volume_etfs
  /\ ("Enter your own"%string <> "Enter your own"%string ->
      on_analyze (Examples.serve Examples.three_days []) "Enter your own" ""
        Examples.jan_03 Examples.jan_07 1000
      = analyze (Examples.serve Examples.three_days []) "Enter your own"
          Examples.jan_03 Examples.jan_07 1000)
  /\ (on_analyze (Examples.serve Examples.three_days []) "Enter your own" ""
        Examples.jan_03 Examples.jan_07 1000
      = StError "Please enter an ETF symbol."
      <-> (Examples.jan_03 < Examples.jan_07)%Z
          /\ "Enter your own"%string = "Enter your own"%string
          /\ ""%string = ""%string).
Proof.
  assert (Hin : In "Enter your own"%string high_volume_etfs)
    by (unfold high_volume_etfs; cbn [In]; tauto).
  split; [exact Hin |].
  exact (symbol_error_iff (Examples.serve Examples.three_days []) "Enter your own" ""
           Examples.jan_03 Examples.jan_07 1000 Hin).
Defined.

Lemma shown_beta_eq P etf_symbol start_date end_date initial_investment a :
  analyze P etf_symbol start_date end_date initial_investment = Report a ->
  shown_beta a
  = beta (download P etf_symbol start_date end_date)
         (download P "^GSPC" start_date end_date).
Proof.
  intros H. apply analyze_report_inv in H. destruct H as (_ & _ & _ & Hm).
  unfold metrics in Hm.
  destruct (assign_daily_return _) as [dr | e]; [| discriminate]. cbn [bind] in Hm.
  destruct (cagr _ _ _) as [c | e]; [| discriminate]. cbn [bind] in Hm.
  destruct (dividend_yield _ _ _ _) as [dy | e]; [| discriminate]. cbn [bind] in Hm.
  injection Hm as <-. reflexivity.
Qed.

Lemma beta_none_iff (data market_data : PriceFrame) :
  beta data market_data = None
  <-> market_data = [] \/ var (market_return market_data) = Fin 0.
Proof.
  unfold beta. destruct market_data as [| row rest].
  - cbn [empty negb]. split; [now left | reflexivity].
  - cbn [empty negb]. unfold fneb.
    destruct (feqb (var (market_return (row :: rest))) (Fin 0)) eqn:E; cbn [negb].
    + apply feqb_zero in E. split; [now right | reflexivity].
    + split; [discriminate |]. intros [H | H]; [discriminate |].
      apply feqb_zero in H. congruence.
Qed.

(** X16. In a report the lines for the two optional metrics read
    "Beta: N/A" and "Dividend Yield: N/A" exactly when the metric is absent,
    however the numbers are formatted: the beta line exactly when the
    benchmark download is empty or the benchmark variance is exactly 0, the
    dividend line exactly when the ticker has no dividend history. *)
Theorem not_applicable_lines
    (fmt_2f fmt_2pct : float64 -> string)
    (P : Provider) (etf_symbol : string) (start_date end_date : Timestamp)
    (initial_investment : Z) (a : Analysis) :
  analyze P etf_symbol start_date end_date initial_investment = Report a ->
  (beta_line fmt_2f a = "Beta: N/A"%string
   <-> download P "^GSPC" start_date end_date = []
       \/ var (market_return (download P "^GSPC" start_date end_date)) = Fin 0)
  /\ (dividend_line fmt_2pct a = "Dividend Yield: N/A"%string
      <-> ticker_dividends P etf_symbol = []).
Proof.
  intros H. split.
  - rewrite <- beta_none_iff, <- (shown_beta_eq _ _ _ _ _ _ H).
    unfold beta_line. destruct (shown_beta a) as [b |].
    + split; [cbn [append]; discriminate | discriminate].
    + tauto.
  - pose proof (shown_dividend_yield_eq _ _ _ _ _ _ H) as Hdy.
    apply analyze_report_inv in H. destruct H as (_ & _ & Hdata & _).
    destruct (download P etf_symbol start_date end_date) as [| [d0 p0] rest];
      [congruence |].
    rewrite dividend_yield_eq in Hdy.
    unfold dividend_line.
    destruct (ticker_dividends P etf_symbol) as [| dv dividends];
      destruct (shown_dividend_yield a) as [dy |]; try discriminate.
    + tauto.
    + split; [cbn [append]; discriminate | discriminate].
Qed.

Lemma not_applicable_lines_witness :
  exists a : Analysis,
    analyze (Examples.serve Examples.three_days []) "SPY"
      Examples.jan_03 Examples.jan_07 1000 = Report a
    /\ (beta_line (fun _ => "1.00"%string) a = "Beta: N/A"%string
        <-> download (Examples.serve Examples.three_days []) "^GSPC"
              Examples.jan_03 Examples.jan_07 = []
            \/ var (market_return
                      (download (Examples.serve Examples.three_days []) "^GSPC"
                         Examples.jan_03 Examples.jan_07)) = Fin 0)
    /\ (dividend_line (fun _ => "0.00%"%string) a = "Dividend Yield: N/A"%string
        <-> ticker_dividends (Examples.serve Examples.three_days []) "SPY" = []).
Proof.
  destruct (three_days_run []) as (c & dy & _ & Ha).
  eexists. split; [exact Ha |].
  exact (not_applicable_lines (fun _ => "1.00"%string) (fun _ => "0.00%"%string)
           (Examples.serve Examples.three_days []) "SPY"
           Examples.jan_03 Examples.jan_07 1000 _ Ha).
Defined.

End PageProperties.
